(** * hand_tracking_module.py: a shallow embedding of [HandDetector]

    The module wraps a hand-landmark engine.  What is the module's own is
    embedded here: the cache of the last detection ([results]) and of the last
    pixel landmark list ([lmList]), the conversion of normalised landmarks to
    pixels, the bounding box, the finger flags and the landmark distance.

    Conventions of the embedding.
    - Python [int] is [Z]; Python [float] is an IEEE-754 binary64 value,
      [spec_float] at precision 53, with the correctly rounded operations of
      [SpecFloat].
    - A Python exception is a value of [pyerr]; code that can raise lives in
      the error monad [Res], and code that also mutates objects in the monad
      [M], whose state survives a raise (as the mutated objects do in Python).
    - Sequences are [list]; subscripting is [py_getitem], with Python's
      negative indices and [IndexError].
    - The drawing calls of cv2 and of the engine's drawing helper are external.
      An image is its [shape] and the log of the drawing calls issued on it, in
      order.  The log says what was asked of the library, not which pixels
      result, and a drawing call is followed on the path where the library
      returns: what the library rejects (a pixel outside the range of a C int,
      an image it cannot draw on) is not modelled.  So a statement that a call
      returns is made with drawing off, and a statement about a call that draws
      is conditional on its return.
    - [math.hypot] converts its int arguments to floats, raising OverflowError
      for an int too large, takes their magnitudes and hands them to the norm
      of the C library.  The last bits of that norm are the library's
      business: it is a parameter [hypot] of [findDistance] and of every
      statement about it. *)

From Stdlib Require Import ZArith List Bool Lia.
From Stdlib Require Import Floats.SpecFloat.
Import ListNotations.

Local Open Scope Z_scope.

(* ------------------------------------------------------------------ *)
(** ** Exceptions and the two monads *)

Inductive pyerr : Type :=
| AttributeError
| IndexError
| ValueError
| OverflowError
| EngineError.

Definition Res (A : Type) : Type := (pyerr + A)%type.

Definition ok {A : Type} (a : A) : Res A := inr a.
Definition raise {A : Type} (e : pyerr) : Res A := inl e.

Definition rbind {A B : Type} (c : Res A) (k : A -> Res B) : Res B :=
  match c with
  | inl e => inl e
  | inr a => k a
  end.

Definition M (S A : Type) : Type := S -> Res A * S.

Definition ret {S A : Type} (a : A) : M S A := fun s => (inr a, s).

Definition bind {S A B : Type} (c : M S A) (k : A -> M S B) : M S B :=
  fun s =>
    match c s with
    | (inl e, s') => (inl e, s')
    | (inr a, s') => k a s'
    end.

Definition lift {S A : Type} (c : Res A) : M S A := fun s => (c, s).
Definition gets {S A : Type} (f : S -> A) : M S A := fun s => (inr (f s), s).
Definition modify {S : Type} (f : S -> S) : M S unit := fun s => (inr tt, f s).
Definition when {S : Type} (b : bool) (c : M S unit) : M S unit :=
  if b then c else ret tt.

Declare Scope py_scope.
Delimit Scope py_scope with py.
Notation "x <- c ;; k" := (bind c (fun x => k))
  (at level 61, c at next level, right associativity) : py_scope.
Notation "c ;; k" := (bind c (fun _ => k))
  (at level 61, right associativity) : py_scope.
Notation "x <~ c ;; k" := (rbind c (fun x => k))
  (at level 61, c at next level, right associativity) : py_scope.

(** [for a in l: body a] *)
Fixpoint for_each {S A : Type} (body : A -> M S unit) (l : list A) : M S unit :=
  match l with
  | [] => ret tt
  | a :: l' => bind (body a) (fun _ => for_each body l')
  end.

(* ------------------------------------------------------------------ *)
(** ** Python sequences *)

Definition len {A : Type} (l : list A) : Z := Z.of_nat (length l).

(** [l[i]]: a negative index counts from the end. *)
Definition py_getitem {A : Type} (l : list A) (i : Z) : Res A :=
  let j := if i <? 0 then i + len l else i in
  if j <? 0 then raise IndexError
  else match nth_error l (Z.to_nat j) with
       | Some a => ok a
       | None => raise IndexError
       end.

(** [enumerate(l)], counting from [k]. *)
Fixpoint enumerate_from {A : Type} (k : Z) (l : list A) : list (Z * A) :=
  match l with
  | [] => []
  | a :: l' => (k, a) :: enumerate_from (k + 1) l'
  end.

Definition enumerate {A : Type} (l : list A) : list (Z * A) := enumerate_from 0 l.

(** [min(l)] and [max(l)]: ValueError on an empty sequence. *)
Definition py_min (l : list Z) : Res Z :=
  match l with
  | [] => raise ValueError
  | a :: l' => ok (fold_left Z.min l' a)
  end.

Definition py_max (l : list Z) : Res Z :=
  match l with
  | [] => raise ValueError
  | a :: l' => ok (fold_left Z.max l' a)
  end.

(** [a, b = l] *)
Definition unpack2 {A : Type} (l : list A) : Res (A * A) :=
  match l with
  | [a; b] => ok (a, b)
  | _ => raise ValueError
  end.

(** [a, b, c = l] *)
Definition unpack3 {A : Type} (l : list A) : Res (A * A * A) :=
  match l with
  | [a; b; c] => ok (a, b, c)
  | _ => raise ValueError
  end.

(** [l[1:]] *)
Definition slice_from_1 {A : Type} (l : list A) : list A := tl l.

(* ------------------------------------------------------------------ *)
(** ** Python floats *)

Definition float : Type := spec_float.
Definition prec : Z := 53.
Definition emax : Z := 1024.

(** The float [m * 2^e], correctly rounded. *)
Definition float_lit (m e : Z) : float := binary_normalize prec emax m e false.

(** [float(n)] as the arithmetic operators apply it to an [int] operand. *)
Definition float_of_int (n : Z) : Res float :=
  match float_lit n 0 with
  | S754_infinity _ => raise OverflowError
  | f => ok f
  end.

(** [x * n] for a float [x] and an int [n]. *)
Definition float_mul_int (x : float) (n : Z) : Res float :=
  (f <~ float_of_int n ;; ok (SFmul prec emax x f))%py.

(** [int(f)]: truncation toward zero. *)
Definition int_of_float (f : float) : Res Z :=
  match f with
  | S754_nan => raise ValueError
  | S754_infinity _ => raise OverflowError
  | S754_zero _ => ok 0
  | S754_finite s m e => ok (cond_Zopp s (Z.shiftl (Zpos m) e))
  end.

(** Python's [round(f)], rounding to the nearest integer, ties to even.  Not
    used by the module; it is what the specification's conversion formula
    names. *)
Definition round_float (f : float) : Res Z :=
  match f with
  | S754_nan => raise ValueError
  | S754_infinity _ => raise OverflowError
  | S754_zero _ => ok 0
  | S754_finite s m e =>
      if 0 <=? e then ok (cond_Zopp s (Zpos m * 2 ^ e))
      else
        let d := 2 ^ (- e) in
        let q := Zpos m / d in
        let r := Zpos m mod d in
        let n := match 2 * r ?= d with
                 | Lt => q
                 | Gt => q + 1
                 | Eq => if Z.even q then q else q + 1
                 end in
        ok (cond_Zopp s n)
  end.

(** The norm of the C library on two floats that are not negative: what
    [math.hypot] computes once it has converted its arguments and taken their
    magnitudes.  It may signal a range error. *)
Definition norm : Type := float -> float -> Res float.

(** [math.hypot(a, b)] on two ints: each argument is converted to a float
    ([OverflowError] for an int too large) and replaced by its magnitude, then
    the library norm is taken. *)
Definition math_hypot (hypot : norm) (a b : Z) : Res float :=
  (x <~ float_of_int a ;;
   y <~ float_of_int b ;;
   hypot (SFabs x) (SFabs y))%py.

(** A number returned by [findDistance]: the int [0] or a float length. *)
Inductive pynum : Type :=
| PyInt (n : Z)
| PyFloat (f : float).

(* ------------------------------------------------------------------ *)
(** ** Data model *)

(** One normalised landmark of the engine ([lm.x], [lm.y]; the depth and
    visibility fields are never read by the module). *)
Module Landmark.
Record t : Type := mk { x : float; y : float }.
End Landmark.

(** One detected hand: [handLms.landmark]. *)
Record Hand : Type := { landmark : list Landmark.t }.

(** What [self.hands.process] returns: [multi_hand_landmarks] is [None] or a
    list of hands. *)
Record DetectionResult : Type := { multi_hand_landmarks : option (list Hand) }.

(** Truth value of [results.multi_hand_landmarks]. *)
Definition truthy {A : Type} (o : option (list A)) : bool :=
  match o with
  | None => false
  | Some [] => false
  | Some (_ :: _) => true
  end.

Definition point : Type := (Z * Z)%type.
Definition colour : Type := (Z * Z * Z)%type.

Definition FILLED : Z := -1.

Inductive draw_op : Type :=
| draw_landmarks (h : Hand)
| circle (center : point) (radius : Z) (c : colour) (thickness : Z)
| rectangle (pt1 pt2 : point) (c : colour) (thickness : Z)
| line (pt1 pt2 : point) (c : colour) (thickness : Z).

(** An image: [img.shape] and the drawing calls issued on it so far, in
    order. *)
Record image : Type := { shape : list Z; drawn : list draw_op }.

(** A drawing call on the path where the library returns: the call is
    logged.  Which pixels it changes, and the inputs the library rejects, are
    not part of the embedding. *)
Definition draw_on (op : draw_op) (i : image) : image :=
  {| shape := shape i; drawn := drawn i ++ [op] |}.

(** The fields of a [HandDetector] instance.  The engine session and the
    drawing helpers are external handles and carry no data of the module. *)
Record HandDetector : Type := {
  mode : bool;
  maxHands : Z;
  detectionCon : float;
  trackCon : float;
  results : option DetectionResult;
  lmList : list (list Z)
}.

Definition tipIds : list Z := [4; 8; 12; 16; 20].

(** [HandDetector.__init__] *)
Definition init (mode_ : bool) (maxHands_ : Z) (detectionCon_ trackCon_ : float)
  : HandDetector :=
  {| mode := mode_; maxHands := maxHands_;
     detectionCon := detectionCon_; trackCon := trackCon_;
     results := None; lmList := [] |}.

Definition set_results (r : DetectionResult) (d : HandDetector) : HandDetector :=
  {| mode := mode d; maxHands := maxHands d;
     detectionCon := detectionCon d; trackCon := trackCon d;
     results := Some r; lmList := lmList d |}.

Definition set_lmList (l : list (list Z)) (d : HandDetector) : HandDetector :=
  {| mode := mode d; maxHands := maxHands d;
     detectionCon := detectionCon d; trackCon := trackCon d;
     results := results d; lmList := l |}.

(** The objects a method call can mutate, and the locals of [findPosition]
    that its loop updates. *)
Record Frame : Type := {
  self : HandDetector;
  img : image;
  xList : list Z;
  yList : list Z
}.

Definition enter (d : HandDetector) (i : image) : Frame :=
  {| self := d; img := i; xList := []; yList := [] |}.

Definition upd_self (f : HandDetector -> HandDetector) (F : Frame) : Frame :=
  {| self := f (self F); img := img F; xList := xList F; yList := yList F |}.

Definition upd_img (f : image -> image) (F : Frame) : Frame :=
  {| self := self F; img := f (img F); xList := xList F; yList := yList F |}.

Definition upd_xList (f : list Z -> list Z) (F : Frame) : Frame :=
  {| self := self F; img := img F; xList := f (xList F); yList := yList F |}.

Definition upd_yList (f : list Z -> list Z) (F : Frame) : Frame :=
  {| self := self F; img := img F; xList := xList F; yList := f (yList F) |}.

Definition append {A : Type} (a : A) (l : list A) : list A := l ++ [a].

(** [self.results.multi_hand_landmarks]: an attribute of [None] does not
    exist. *)
Definition get_multi_hand_landmarks : M Frame (option (list Hand)) :=
  fun F =>
    match results (self F) with
    | None => (raise AttributeError, F)
    | Some r => (ok (multi_hand_landmarks r), F)
    end.

Local Open Scope py_scope.

(* ------------------------------------------------------------------ *)
(** ** findHands *)

Section Engine.

(** [self.hands.process(cv2.cvtColor(img, cv2.COLOR_BGR2RGB))]: the external
    engine, which may reject the image. *)
Variable process : image -> Res DetectionResult.

Definition findHands_body (draw : bool) : M Frame image :=
  i <- gets img ;;
  r <- lift (process i) ;;
  modify (upd_self (set_results r)) ;;
  mhl <- get_multi_hand_landmarks ;;
  when (truthy mhl)
    (for_each
       (fun handLms => when draw (modify (upd_img (draw_on (draw_landmarks handLms)))))
       (match mhl with Some hs => hs | None => [] end)) ;;
  gets img.

Definition findHands (i : image) (draw : bool) (d : HandDetector)
  : Res image * HandDetector * image :=
  let '(r, F) := findHands_body draw (enter d i) in (r, self F, img F).

End Engine.

(* ------------------------------------------------------------------ *)
(** ** findPosition *)

(** [int(lm.x * w), int(lm.y * h)] *)
Definition to_pixel (w h : Z) (lm : Landmark.t) : Res (Z * Z) :=
  fx <~ float_mul_int (Landmark.x lm) w ;;
  cx <~ int_of_float fx ;;
  fy <~ float_mul_int (Landmark.y lm) h ;;
  cy <~ int_of_float fy ;;
  ok (cx, cy).

(** The body of [for id, lm in enumerate(myHand.landmark)]. *)
Definition position_step (draw : bool) (p : Z * Landmark.t) : M Frame unit :=
  let '(id, lm) := p in
  sh <- gets (fun F => shape (img F)) ;;
  hw <- lift (unpack3 sh) ;;
  let '(h, w, _) := hw in
  c <- lift (to_pixel w h lm) ;;
  let '(cx, cy) := c in
  modify (upd_xList (append cx)) ;;
  modify (upd_yList (append cy)) ;;
  modify (upd_self (fun d => set_lmList (append [id; cx; cy] (lmList d)) d)) ;;
  when draw (modify (upd_img (draw_on (circle (cx, cy) 7 (0, 255, 0) FILLED)))).

Definition findPosition_body (handNo : Z) (draw : bool)
  : M Frame (list (list Z) * list Z) :=
  modify (upd_xList (fun _ => [])) ;;
  modify (upd_yList (fun _ => [])) ;;
  modify (upd_self (set_lmList [])) ;;
  mhl <- get_multi_hand_landmarks ;;
  if truthy mhl then
    let hands := match mhl with Some hs => hs | None => [] end in
    if handNo <? len hands then
      myHand <- lift (py_getitem hands handNo) ;;
      for_each (position_step draw) (enumerate (landmark myHand)) ;;
      xs <- gets xList ;;
      ys <- gets yList ;;
      xmin <- lift (py_min xs) ;;
      xmax <- lift (py_max xs) ;;
      ymin <- lift (py_min ys) ;;
      ymax <- lift (py_max ys) ;;
      when draw
        (modify (upd_img (draw_on
           (rectangle (xmin - 20, ymin - 20) (xmax + 20, ymax + 20) (0, 255, 0) 2)))) ;;
      l <- gets (fun F => lmList (self F)) ;;
      ret (l, [xmin; ymin; xmax; ymax])
    else
      l <- gets (fun F => lmList (self F)) ;;
      ret (l, [])
  else
    l <- gets (fun F => lmList (self F)) ;;
    ret (l, []).

(** [detector.findPosition(img, handNo, draw)]: the value returned or the
    exception raised, and the detector and the image as the call leaves them. *)
Definition findPosition (i : image) (handNo : Z) (draw : bool) (d : HandDetector)
  : Res (list (list Z) * list Z) * HandDetector * image :=
  let '(r, F) := findPosition_body handNo draw (enter d i) in (r, self F, img F).

(* ------------------------------------------------------------------ *)
(** ** fingersUp *)

Definition flag (b : bool) : Z := if b then 1 else 0.

(** [self.lmList[i][j]] *)
Definition coord (l : list (list Z)) (i j : Z) : Res Z :=
  e <~ py_getitem l i ;; py_getitem e j.

(** The body of [for id in range(1, 5)], appending to [fingers]. *)
Definition finger_step (l : list (list Z)) (fingers : list Z) (id : Z) : Res (list Z) :=
  t <~ py_getitem tipIds id ;;
  a <~ coord l t 2 ;;
  t' <~ py_getitem tipIds id ;;
  b <~ coord l (t' - 2) 2 ;;
  ok (append (flag (a <? b)) fingers).

Fixpoint rfold {A B : Type} (f : B -> A -> Res B) (l : list A) (b : B) : Res B :=
  match l with
  | [] => ok b
  | a :: l' => b' <~ f b a ;; rfold f l' b'
  end.

Definition fingersUp (d : HandDetector) : Res (list Z) :=
  let fingers := [] in
  match lmList d with
  | [] => ok fingers
  | _ :: _ =>
      t <~ py_getitem tipIds 0 ;;
      a <~ coord (lmList d) t 1 ;;
      t' <~ py_getitem tipIds 0 ;;
      b <~ coord (lmList d) (t' - 1) 1 ;;
      let fingers := append (flag (b <? a)) fingers in
      rfold (finger_step (lmList d)) [1; 2; 3; 4] fingers
  end.

(* ------------------------------------------------------------------ *)
(** ** findDistance *)

Definition findDistance (hypot : norm) (p1 p2 : Z) (i : image) (draw : bool)
           (d : HandDetector)
  : Res (pynum * image * list Z) :=
  match lmList d with
  | [] => ok (PyInt 0, i, [])
  | _ :: _ =>
      e1 <~ py_getitem (lmList d) p1 ;;
      xy1 <~ unpack2 (slice_from_1 e1) ;;
      let '(x1, y1) := xy1 in
      e2 <~ py_getitem (lmList d) p2 ;;
      xy2 <~ unpack2 (slice_from_1 e2) ;;
      let '(x2, y2) := xy2 in
      let cx := (x1 + x2) / 2 in
      let cy := (y1 + y2) / 2 in
      let i' :=
        if draw then
          draw_on (circle (cx, cy) 10 (255, 0, 0) FILLED)
            (draw_on (line (x1, y1) (x2, y2) (255, 0, 255) 3)
               (draw_on (circle (x2, y2) 10 (0, 255, 0) FILLED)
                  (draw_on (circle (x1, y1) 10 (0, 255, 0) FILLED) i)))
        else i in
      length <~ math_hypot hypot (x2 - x1) (y2 - y1) ;;
      ok (PyFloat length, i', [x1; y1; x2; y2; cx; cy])
  end.

(* ------------------------------------------------------------------ *)
(** * Definitions used in the statements *)

(** ** The loop of [findPosition] *)

(** The pixel coordinates of a whole hand, when every conversion succeeds. *)
Fixpoint pixels (w h : Z) (lms : list Landmark.t) : Res (list (Z * Z)) :=
  match lms with
  | [] => ok []
  | lm :: lms' =>
      c <~ to_pixel w h lm ;;
      cs <~ pixels w h lms' ;;
      ok (c :: cs)
  end.

(** The rows [[id, cx, cy]] of a landmark list, numbered from [k]. *)
Definition row (p : Z * (Z * Z)) : list Z := [fst p; fst (snd p); snd (snd p)].

Definition rows_from (k : Z) (pts : list (Z * Z)) : list (list Z) :=
  map row (enumerate_from k pts).

Definition markers (pts : list (Z * Z)) : list draw_op :=
  map (fun c => circle c 7 (0, 255, 0) FILLED) pts.

Definition draw_all (draw : bool) (ops : list draw_op) (i : image) : image :=
  if draw then {| shape := shape i; drawn := drawn i ++ ops |} else i.

Definition row_x (p : Z * (Z * Z)) : Z := fst (snd p).
Definition row_y (p : Z * (Z * Z)) : Z := snd (snd p).

(** The three lists the loop fills describe the same points. *)
Definition consistent (F : Frame) : Prop :=
  exists rows : list (Z * (Z * Z)),
    lmList (self F) = map row rows /\
    xList F = map row_x rows /\
    yList F = map row_y rows.

(** ** Landmark lists *)

(** A landmark list as [findPosition] builds it for one hand: 21 rows
    [[id, x, y]]. *)
Definition wf_lmList (l : list (list Z)) : bool :=
  (length l =? 21)%nat && forallb (fun e => (length e =? 3)%nat) l.

Definition lm_row (l : list (list Z)) (p : Z) : list Z := nth (Z.to_nat p) l [].
Definition lm_id (l : list (list Z)) (p : Z) : Z := nth 0 (lm_row l p) 0.
Definition lm_x (l : list (list Z)) (p : Z) : Z := nth 1 (lm_row l p) 0.
Definition lm_y (l : list (list Z)) (p : Z) : Z := nth 2 (lm_row l p) 0.

(** ** What [findDistance] draws and returns *)

Definition distance_marks (x1 y1 x2 y2 : Z) : list draw_op :=
  [circle (x1, y1) 10 (0, 255, 0) FILLED;
   circle (x2, y2) 10 (0, 255, 0) FILLED;
   line (x1, y1) (x2, y2) (255, 0, 255) 3;
   circle ((x1 + x2) / 2, (y1 + y2) / 2) 10 (255, 0, 0) FILLED].


(* ------------------------------------------------------------------ *)
(** * Concrete detectors and images *)

Definition float_half : float := float_lit 1 (-1).

(** A 100-wide, 200-high colour image: [img.shape == (200, 100, 3)]. *)
Definition demo_image : image := {| shape := [200; 100; 3]; drawn := [] |}.

(** A hand whose landmark [k] lies at [((32 + k) / 64, (32 - k) / 64)];
    landmark 0 is at (0.5, 0.5). *)
Definition demo_hand : Hand :=
  {| landmark :=
       map (fun k => Landmark.mk (float_lit (32 + k) (-6)) (float_lit (32 - k) (-6)))
           (map Z.of_nat (seq 0 21)) |}.

Definition fresh_detector : HandDetector := init false 2 float_half float_half.

Definition demo_detector : HandDetector :=
  set_results {| multi_hand_landmarks := Some [demo_hand] |} fresh_detector.

Definition demo_call : Res (list (list Z) * list Z) * HandDetector * image :=
  Eval vm_compute in findPosition demo_image 0 true demo_detector.

Definition demo_lmList : list (list Z) :=
  Eval vm_compute in match fst (fst demo_call) with inr (l, _) => l | inl _ => [] end.

Definition demo_bbox : list Z :=
  Eval vm_compute in match fst (fst demo_call) with inr (_, b) => b | inl _ => [] end.

(** The detector after that call, with its landmark list cached. *)
Definition demo_cached : HandDetector := Eval vm_compute in snd (fst demo_call).

(** A 10 x 10 image and a hand with every landmark at (0.875, 0.875). *)
Definition small_image : image := {| shape := [10; 10; 3]; drawn := [] |}.

Definition corner_landmark : Landmark.t :=
  Landmark.mk (float_lit 7 (-3)) (float_lit 7 (-3)).

Definition corner_detector : HandDetector :=
  set_results {| multi_hand_landmarks := Some [{| landmark := repeat corner_landmark 21 |}] |}
              fresh_detector.

(** A stand-in for the library norm in the concrete runs: the square root of
    the sum of the squares, each operation rounded to binary64. *)
Definition sqrt_norm : norm :=
  fun a b =>
    ok (SFsqrt prec emax
          (SFadd prec emax (SFmul prec emax a a) (SFmul prec emax b b))).


(* ------------------------------------------------------------------ *)
(** * Predicates of the statements *)

(** The hands of a detection result, none when the field is [None]. *)
Definition hands_of (r : DetectionResult) : list Hand :=
  match multi_hand_landmarks r with
  | Some hs => hs
  | None => []
  end.

(** Every landmark of the hand converts to a pixel without an exception. *)
Definition converts (w h : Z) (lm : Landmark.t) : bool :=
  match to_pixel w h lm with
  | inr _ => true
  | inl _ => false
  end.

(** The conversion as the specification words it: [round(x * w)],
    [round(y * h)]. *)
Definition rounded_pixel (w h : Z) (lm : Landmark.t) (cx cy : Z) : Prop :=
  exists fx fy,
    float_mul_int (Landmark.x lm) w = ok fx /\ round_float fx = ok cx /\
    float_mul_int (Landmark.y lm) h = ok fy /\ round_float fy = ok cy.

(** The conversion claim with rounding: every row of a returned landmark list
    holds the rounded products of its landmark. *)
Definition locate_rounds : Prop :=
  forall (i : image) (handNo : Z) (draw : bool) (d : HandDetector)
         (r : DetectionResult) (myHand : Hand) (h w c : Z)
         (lms : list (list Z)) (bb : list Z) (d' : HandDetector) (i' : image)
         (n : nat) (lm : Landmark.t),
    results d = Some r ->
    py_getitem (hands_of r) handNo = ok myHand ->
    shape i = [h; w; c] ->
    findPosition i handNo draw d = (ok (lms, bb), d', i') ->
    nth_error (landmark myHand) n = Some lm ->
    exists cx cy,
      nth_error lms n = Some [Z.of_nat n; cx; cy] /\ rounded_pixel w h lm cx cy.

(** An index that a sequence of that length does not have. *)
Definition out_of_range {A : Type} (l : list A) (i : Z) : Prop :=
  i < - len l \/ len l <= i.

(** The soft-failure claim over every index the hand list does not have. *)
Definition locate_out_of_range_is_soft : Prop :=
  forall (i : image) (handNo : Z) (draw : bool) (d : HandDetector) (r : DetectionResult),
    results d = Some r ->
    out_of_range (hands_of r) handNo ->
    exists d' i', findPosition i handNo draw d = (ok ([], []), d', i').

(** [f] is the flag of the test [P]: 1 exactly when [P] holds, else 0. *)
Definition is_flag_of (f : Z) (P : Prop) : Prop := (P /\ f = 1) \/ (~ P /\ f = 0).

(** The index claim: on a cached landmark list every index outside [0, 20]
    makes [findDistance] raise. *)
Definition distance_rejects_outside_0_20 : Prop :=
  forall (hypot : norm) (p1 p2 : Z) (i : image) (draw : bool) (d : HandDetector),
    wf_lmList (lmList d) = true ->
    ~ 0 <= p1 <= 20 \/ ~ 0 <= p2 <= 20 ->
    exists e, findDistance hypot p1 p2 i draw d = raise e.

(* ------------------------------------------------------------------ *)
(** * Definitions for the further properties *)

(** What [findPosition] does once it has selected [myHand]: the loop over the
    landmarks, the bounding box, the rectangle and the return. *)
Definition locate_selected (myHand : Hand) (draw : bool)
  : M Frame (list (list Z) * list Z) :=
  for_each (position_step draw) (enumerate (landmark myHand)) ;;
  xs <- gets xList ;;
  ys <- gets yList ;;
  xmin <- lift (py_min xs) ;;
  xmax <- lift (py_max xs) ;;
  ymin <- lift (py_min ys) ;;
  ymax <- lift (py_max ys) ;;
  when draw
    (modify (upd_img (draw_on
       (rectangle (xmin - 20, ymin - 20) (xmax + 20, ymax + 20) (0, 255, 0) 2)))) ;;
  l <- gets (fun F => lmList (self F)) ;;
  ret (l, [xmin; ymin; xmax; ymax]).

(** The outcome of a method body run on a detector and an image. *)
Definition run {A : Type} (c : M Frame A) (d : HandDetector) (i : image)
  : Res A * HandDetector * image :=
  let '(r, F) := c (enter d i) in (r, self F, img F).

(** The marker [findPosition] draws for a row [[id, x, y]]. *)
Definition marker_of_row (e : list Z) : draw_op :=
  circle (nth 1 e 0, nth 2 e 0) 7 (0, 255, 0) FILLED.

(** The rectangle [findPosition] draws around a box [[xmin, ymin, xmax, ymax]]. *)
Definition frame_of_box (bb : list Z) : draw_op :=
  rectangle (nth 0 bb 0 - 20, nth 1 bb 0 - 20) (nth 2 bb 0 + 20, nth 3 bb 0 + 20)
            (0, 255, 0) 2.

(** What no call of [findPosition] on detector [d] and image [i] changes: the
    recorded detection and the configuration, the shape of the image and what
    was drawn on it before; and the whole image when [draw] is off. *)
Definition untouched (d : HandDetector) (i : image) (draw : bool) (F : Frame) : Prop :=
  results (self F) = results d /\
  mode (self F) = mode d /\ maxHands (self F) = maxHands d /\
  detectionCon (self F) = detectionCon d /\ trackCon (self F) = trackCon d /\
  shape (img F) = shape i /\
  (exists ops, drawn (img F) = drawn i ++ ops) /\
  (draw = false -> img F = i).

(** A hand whose third landmark has a NaN abscissa. *)
Definition nan_hand : Hand :=
  {| landmark :=
       [Landmark.mk float_half float_half;
        Landmark.mk (float_lit 1 (-2)) (float_lit 3 (-2));
        Landmark.mk S754_nan float_half;
        Landmark.mk float_half float_half] |}.

Definition nan_detector : HandDetector :=
  set_results {| multi_hand_landmarks := Some [nan_hand] |} fresh_detector.

(** A grey-level image: [img.shape == (200, 100)]. *)
Definition grey_image : image := {| shape := [200; 100]; drawn := [] |}.

(** Two detected hands, the demonstration hand last. *)
Definition two_hands_detector : HandDetector :=
  set_results
    {| multi_hand_landmarks :=
         Some [{| landmark := repeat corner_landmark 21 |}; demo_hand] |}
    fresh_detector.

(** With [draw] on, the image carries one marker for each row cached so far. *)
Definition painted (i : image) (F : Frame) : Prop :=
  shape (img F) = shape i /\
  drawn (img F) = drawn i ++ map marker_of_row (lmList (self F)).

(** A list cut short: the first five rows of the demonstration list. *)
Definition short_detector : HandDetector :=
  set_lmList (firstn 5 demo_lmList) fresh_detector.

(** A landmark list with the abscissa of every row sent through [fx] and the
    ordinate through [fy]: the same hand moved, scaled or mirrored. *)
Definition map_rows (fx fy : Z -> Z) (l : list (list Z)) : list (list Z) :=
  map (fun e => match e with
                | [id; x; y] => [id; fx x; fy y]
                | _ => e
                end) l.

(** A float that is not a negative number: zeros of either sign and positive
    numbers (and the values [int] rejects). *)
Definition not_negative (f : float) : bool :=
  match f with
  | S754_finite s _ _ => negb s
  | _ => true
  end.

(** Both coordinates of a landmark are not negative. *)
Definition in_first_quadrant (lm : Landmark.t) : bool :=
  not_negative (Landmark.x lm) && not_negative (Landmark.y lm).

(** Two frames that agree on everything but what is drawn on the image. *)
Definition same_but_drawing (F F' : Frame) : Prop :=
  self F = self F' /\ xList F = xList F' /\ yList F = yList F' /\
  shape (img F) = shape (img F').

(** The detector a call of [findPosition] leaves when the third landmark of
    the hand does not convert: two rows are cached. *)
Definition interrupted_detector : HandDetector :=
  Eval vm_compute in snd (fst (findPosition demo_image 0 false nan_detector)).


(** The flag claim over every list that is not empty: five flags, each 0
    or 1. *)
Definition five_flags_whenever_cached : Prop :=
  forall d : HandDetector,
    lmList d <> [] ->
    exists thumb index middle ring pinky,
      fingersUp d = ok [thumb; index; middle; ring; pinky] /\
      Forall (fun f => f = 0 \/ f = 1) [thumb; index; middle; ring; pinky].


(* ------------------------------------------------------------------ *)
(** * Properties *)

(** ** Subscripting *)

Lemma py_getitem_nonneg {A : Type} (l : list A) (i : Z) :
  0 <= i ->
  py_getitem l i =
  match nth_error l (Z.to_nat i) with
  | Some a => ok a
  | None => raise IndexError
  end.
Proof.
  intros Hi. unfold py_getitem.
  destruct (Z.ltb_spec i 0); [lia |].
  destruct (Z.ltb_spec i 0); [lia | reflexivity].
Qed.

Lemma py_getitem_wraps {A : Type} (l : list A) (i : Z) :
  - len l <= i < 0 -> py_getitem l i = py_getitem l (i + len l).
Proof.
  intros Hi. rewrite (py_getitem_nonneg l (i + len l)) by lia.
  unfold py_getitem.
  destruct (Z.ltb_spec i 0); [| lia].
  destruct (Z.ltb_spec (i + len l) 0); [lia | reflexivity].
Qed.

Lemma py_getitem_above {A : Type} (l : list A) (i : Z) :
  len l <= i -> py_getitem l i = raise IndexError.
Proof.
  intros Hi. unfold len in Hi.
  rewrite py_getitem_nonneg by lia.
  destruct (nth_error l (Z.to_nat i)) eqn:E; [| reflexivity].
  assert (Z.to_nat i < length l)%nat by (apply nth_error_Some; congruence).
  lia.
Qed.

Lemma py_getitem_below {A : Type} (l : list A) (i : Z) :
  i < - len l -> py_getitem l i = raise IndexError.
Proof.
  intros Hi. unfold py_getitem. unfold len in *.
  destruct (Z.ltb_spec i 0); [| lia].
  destruct (Z.ltb_spec (i + Z.of_nat (length l)) 0); [reflexivity | lia].
Qed.

Lemma py_getitem_nil {A : Type} (i : Z) :
  py_getitem (@nil A) i = raise IndexError.
Proof.
  destruct (Z.lt_ge_cases i 0).
  - apply py_getitem_below. unfold len. simpl. lia.
  - apply py_getitem_above. unfold len. simpl. lia.
Qed.

Lemma py_getitem_nth {A : Type} (l : list A) (i : Z) (d : A) :
  0 <= i < len l -> py_getitem l i = ok (nth (Z.to_nat i) l d).
Proof.
  intros Hi. unfold len in Hi.
  rewrite py_getitem_nonneg by lia.
  rewrite (nth_error_nth' l d) by lia. reflexivity.
Qed.

(** ** [min] and [max] *)

Lemma fold_min_le (l : list Z) (a : Z) :
  fold_left Z.min l a <= a /\ forall v, In v l -> fold_left Z.min l a <= v.
Proof.
  revert a. induction l as [| b l IH]; intros a; simpl.
  - split; [lia | intros v []].
  - destruct (IH (Z.min a b)) as [H1 H2]. split.
    + lia.
    + intros v [-> | Hv]; [lia | auto].
Qed.

Lemma fold_max_ge (l : list Z) (a : Z) :
  a <= fold_left Z.max l a /\ forall v, In v l -> v <= fold_left Z.max l a.
Proof.
  revert a. induction l as [| b l IH]; intros a; simpl.
  - split; [lia | intros v []].
  - destruct (IH (Z.max a b)) as [H1 H2]. split.
    + lia.
    + intros v [-> | Hv]; [lia | auto].
Qed.

Lemma py_min_le (l : list Z) (m : Z) :
  py_min l = ok m -> forall v, In v l -> m <= v.
Proof.
  destruct l as [| a l]; simpl; [discriminate |].
  intros [= <-] v [-> | Hv].
  - apply (proj1 (fold_min_le l v)).
  - apply (proj2 (fold_min_le l a)), Hv.
Qed.

Lemma py_max_ge (l : list Z) (m : Z) :
  py_max l = ok m -> forall v, In v l -> v <= m.
Proof.
  destruct l as [| a l]; simpl; [discriminate |].
  intros [= <-] v [-> | Hv].
  - apply (proj1 (fold_max_ge l v)).
  - apply (proj2 (fold_max_ge l a)), Hv.
Qed.

(** ** The loop of [findPosition] *)

Lemma rows_from_length (k : Z) (pts : list (Z * Z)) :
  length (rows_from k pts) = length pts.
Proof.
  unfold rows_from. rewrite length_map.
  revert k. induction pts as [| p pts IH]; intros k; simpl; [reflexivity |].
  now rewrite IH.
Qed.

Lemma pixels_length (w h : Z) (lms : list Landmark.t) (pts : list (Z * Z)) :
  pixels w h lms = ok pts -> length pts = length lms.
Proof.
  revert pts. induction lms as [| lm lms IH]; intros pts; simpl.
  - intros [= <-]. reflexivity.
  - destruct (to_pixel w h lm) as [e | c]; simpl; [discriminate |].
    destruct (pixels w h lms) as [e | cs]; simpl; [discriminate |].
    intros [= <-]. simpl. now rewrite (IH cs).
Qed.

Lemma for_each_cons {S A : Type} (body : A -> M S unit) (a : A) (l : list A) (s : S) :
  for_each body (a :: l) s =
  match body a s with
  | (inl e, s') => (inl e, s')
  | (inr _, s') => for_each body l s'
  end.
Proof. reflexivity. Qed.

Lemma position_step_ok (draw : bool) (w h c k cx cy : Z) (lm : Landmark.t)
      (d : HandDetector) (dr : list draw_op) (xs ys : list Z) :
  to_pixel w h lm = ok (cx, cy) ->
  position_step draw (k, lm)
    {| self := d; img := {| shape := [h; w; c]; drawn := dr |};
       xList := xs; yList := ys |}
  = (ok tt,
     {| self := set_lmList (lmList d ++ [[k; cx; cy]]) d;
        img := {| shape := [h; w; c];
                  drawn := if draw then dr ++ markers [(cx, cy)] else dr |};
        xList := xs ++ [cx];
        yList := ys ++ [cy] |}).
Proof.
  intros Hlm. unfold position_step, bind, gets, lift, modify, when. simpl.
  rewrite Hlm. destruct draw; reflexivity.
Qed.

Lemma position_loop_ok (draw : bool) (w h c : Z) (lms : list Landmark.t) :
  forall (k : Z) (pts : list (Z * Z)) (d : HandDetector) (sh : list Z)
         (dr : list draw_op) (xs ys : list Z),
    sh = [h; w; c] ->
    pixels w h lms = ok pts ->
    for_each (position_step draw) (enumerate_from k lms)
      {| self := d; img := {| shape := sh; drawn := dr |}; xList := xs; yList := ys |}
    = (ok tt,
       {| self := set_lmList (lmList d ++ rows_from k pts) d;
          img := {| shape := sh;
                    drawn := if draw then dr ++ markers pts else dr |};
          xList := xs ++ map fst pts;
          yList := ys ++ map snd pts |}).
Proof.
  induction lms as [| lm lms IH]; intros k pts d sh dr xs ys Hsh Hpx; simpl in Hpx.
  - injection Hpx as <-. simpl. unfold ret, ok, rows_from. simpl.
    rewrite !app_nil_r. destruct d, draw; reflexivity.
  - destruct (to_pixel w h lm) as [e | [cx cy]] eqn:Hlm; simpl in Hpx; [discriminate |].
    destruct (pixels w h lms) as [e | cs] eqn:Hcs; simpl in Hpx; [discriminate |].
    injection Hpx as <-. subst sh.
    cbn [enumerate_from]. rewrite for_each_cons.
    rewrite (position_step_ok draw w h c k cx cy lm) by exact Hlm.
    unfold ok at 1.
    rewrite (IH (k + 1) cs) by reflexivity.
    unfold rows_from, markers. cbn [enumerate_from map fst snd row set_lmList lmList
      mode maxHands detectionCon trackCon results].
    rewrite <- !app_assoc.
    destruct draw; rewrite <- ?app_assoc; reflexivity.
Qed.

(** A property of the frame that every iteration keeps is kept by the loop,
    whether the loop finishes or is left by an exception. *)
Lemma for_each_invariant {S A : Type} (P : S -> Prop) (body : A -> M S unit) :
  (forall a s, P s -> P (snd (body a s))) ->
  forall l s, P s -> P (snd (for_each body l s)).
Proof.
  intros Hbody. induction l as [| a l IH]; intros s Hs.
  - exact Hs.
  - rewrite for_each_cons. specialize (Hbody a s Hs).
    destruct (body a s) as [[e | []] s']; simpl in Hbody.
    + exact Hbody.
    + apply IH, Hbody.
Qed.

Lemma position_step_consistent (draw : bool) (p : Z * Landmark.t) (F : Frame) :
  consistent F -> consistent (snd (position_step draw p F)).
Proof.
  intros HF. destruct p as [k lm]. destruct F as [d i xs ys].
  unfold position_step, bind, gets, lift, modify, when. simpl.
  destruct (unpack3 (shape i)) as [e | [[h w] c]]; simpl; [exact HF |].
  destruct (to_pixel w h lm) as [e | [cx cy]]; simpl; [exact HF |].
  destruct HF as (rows & H1 & H2 & H3). simpl in H1, H2, H3.
  destruct draw; simpl; exists (rows ++ [(k, (cx, cy))]); simpl;
    unfold append; rewrite !map_app, H1, H2, H3; repeat split.
Qed.

(** What a returning call of [findPosition] has computed. *)
Lemma findPosition_returns (i : image) (handNo : Z) (draw : bool) (d : HandDetector)
      (lms : list (list Z)) (bb : list Z) (d' : HandDetector) (i' : image) :
  findPosition i handNo draw d = (ok (lms, bb), d', i') ->
  lmList d' = lms /\
  ((lms = [] /\ bb = []) \/
   exists rows xmin ymin xmax ymax,
     lms = map row rows /\ bb = [xmin; ymin; xmax; ymax] /\
     py_min (map row_x rows) = ok xmin /\ py_max (map row_x rows) = ok xmax /\
     py_min (map row_y rows) = ok ymin /\ py_max (map row_y rows) = ok ymax).
Proof.
  unfold findPosition, findPosition_body, enter, get_multi_hand_landmarks.
  unfold bind, modify, gets, lift, ret, when, ok. simpl.
  destruct (results d) as [r |]; [| discriminate].
  destruct (multi_hand_landmarks r) as [[| h0 hs] |]; simpl.
  - intros [= <- <- <- <-]. split; [reflexivity | left; split; reflexivity].
  - destruct (handNo <? len (h0 :: hs)).
    + destruct (py_getitem (h0 :: hs) handNo) as [e | myHand]; [discriminate |].
      pose proof (for_each_invariant consistent (position_step draw)
                    (position_step_consistent draw)
                    (enumerate (landmark myHand))
                    {| self := set_lmList [] d; img := i; xList := []; yList := [] |})
        as Hinv.
      destruct (for_each (position_step draw) (enumerate (landmark myHand)) _)
        as [[e | []] F1]; [discriminate |].
      destruct Hinv as (rows & H1 & H2 & H3).
      { exists []. repeat split. }
      simpl in H1, H2, H3.
      destruct (py_min (xList F1)) as [e | xmin] eqn:Exmin; [discriminate |].
      destruct (py_max (xList F1)) as [e | xmax] eqn:Exmax; [discriminate |].
      destruct (py_min (yList F1)) as [e | ymin] eqn:Eymin; [discriminate |].
      destruct (py_max (yList F1)) as [e | ymax] eqn:Eymax; [discriminate |].
      rewrite H2 in Exmin, Exmax. rewrite H3 in Eymin, Eymax.
      destruct draw; simpl; intros [= <- <- <- <-]; (split; [reflexivity |]);
        right; exists rows, xmin, ymin, xmax, ymax; repeat split; assumption.
    + intros [= <- <- <- <-]. split; [reflexivity | left; split; reflexivity].
  - intros [= <- <- <- <-]. split; [reflexivity | left; split; reflexivity].
Qed.

Lemma pixels_total (w h : Z) (lms : list Landmark.t) :
  (forall lm, In lm lms -> exists c, to_pixel w h lm = ok c) ->
  exists pts, pixels w h lms = ok pts.
Proof.
  induction lms as [| lm lms IH]; intros Hall; simpl.
  - exists []. reflexivity.
  - destruct (Hall lm) as [c Hc]; [left; reflexivity |].
    destruct IH as [cs Hcs]; [intros lm' Hin; apply Hall; right; exact Hin |].
    exists (c :: cs). rewrite Hc, Hcs. reflexivity.
Qed.

Lemma pixels_nth (w h : Z) (lms : list Landmark.t) :
  forall (pts : list (Z * Z)) (n : nat) (lm : Landmark.t),
    pixels w h lms = ok pts ->
    nth_error lms n = Some lm ->
    exists c, nth_error pts n = Some c /\ to_pixel w h lm = ok c.
Proof.
  induction lms as [| lm0 lms IH]; intros pts n lm Hpx Hn.
  - destruct n; discriminate.
  - simpl in Hpx.
    destruct (to_pixel w h lm0) as [e | c0] eqn:H0; simpl in Hpx; [discriminate |].
    destruct (pixels w h lms) as [e | cs] eqn:Hcs; simpl in Hpx; [discriminate |].
    injection Hpx as <-.
    destruct n as [| n]; simpl in Hn |- *.
    + injection Hn as <-. exists c0. split; [reflexivity | exact H0].
    + apply (IH cs n lm eq_refl Hn).
Qed.

Lemma rows_from_nth (pts : list (Z * Z)) :
  forall (k : Z) (n : nat) (cx cy : Z),
    nth_error pts n = Some (cx, cy) ->
    nth_error (rows_from k pts) n = Some [k + Z.of_nat n; cx; cy].
Proof.
  induction pts as [| p pts IH]; intros k n cx cy Hn.
  - destruct n; discriminate.
  - destruct n as [| n]; simpl in Hn.
    + injection Hn as ->. unfold rows_from, row. simpl.
      rewrite Z.add_0_r. reflexivity.
    + unfold rows_from in *. simpl. rewrite (IH (k + 1) n cx cy Hn).
      do 2 f_equal. lia.
Qed.

Lemma rows_from_shape (pts : list (Z * Z)) (k : Z) :
  Forall (fun e => length e = 3%nat) (rows_from k pts).
Proof.
  unfold rows_from. apply Forall_map, Forall_forall. intros p _. reflexivity.
Qed.

(** A call of [findPosition] that selects a hand whose landmarks all convert. *)
Lemma findPosition_ok (i : image) (handNo : Z) (draw : bool) (d : HandDetector)
      (r : DetectionResult) (hands : list Hand) (myHand : Hand)
      (h w c : Z) (pts : list (Z * Z)) :
  results d = Some r ->
  multi_hand_landmarks r = Some hands ->
  handNo < len hands ->
  py_getitem hands handNo = ok myHand ->
  shape i = [h; w; c] ->
  pixels w h (landmark myHand) = ok pts ->
  pts <> [] ->
  exists xmin ymin xmax ymax,
    py_min (map fst pts) = ok xmin /\ py_max (map fst pts) = ok xmax /\
    py_min (map snd pts) = ok ymin /\ py_max (map snd pts) = ok ymax /\
    findPosition i handNo draw d =
    (ok (rows_from 0 pts, [xmin; ymin; xmax; ymax]),
     set_lmList (rows_from 0 pts) d,
     draw_all draw
       (markers pts ++
        [rectangle (xmin - 20, ymin - 20) (xmax + 20, ymax + 20) (0, 255, 0) 2]) i).
Proof.
  intros Hres Hmhl Hlt Hget Hsh Hpx Hne.
  destruct pts as [| [cx0 cy0] pts']; [congruence |].
  set (pts := (cx0, cy0) :: pts') in *.
  exists (fold_left Z.min (map fst pts') cx0), (fold_left Z.min (map snd pts') cy0),
         (fold_left Z.max (map fst pts') cx0), (fold_left Z.max (map snd pts') cy0).
  repeat (split; [reflexivity |]).
  destruct i as [sh dr]. simpl in Hsh.
  unfold findPosition, findPosition_body, enter, get_multi_hand_landmarks.
  unfold bind at 1 2 3 4. unfold modify at 1 2 3.
  cbn [upd_xList upd_yList upd_self self img xList yList set_lmList results
       mode maxHands detectionCon trackCon lmList].
  rewrite Hres, Hmhl.
  assert (Htruthy : truthy (Some hands) = true).
  { destruct hands; [| reflexivity]. unfold len in Hlt. simpl in Hlt.
    rewrite py_getitem_below in Hget by (unfold len; simpl; lia).
    discriminate. }
  unfold ok at 1. rewrite Htruthy.
  destruct (Z.ltb_spec handNo (len hands)); [| lia].
  unfold bind at 1. unfold lift at 1. rewrite Hget. unfold ok at 1.
  unfold bind at 1. unfold enumerate.
  unfold upd_xList, upd_yList, upd_self. cbn [self img xList yList].
  rewrite (position_loop_ok draw w h c (landmark myHand) 0 pts) by assumption.
  unfold ok at 1.
  unfold bind, gets, lift, modify, when, ret.
  cbn [xList yList self img lmList set_lmList app].
  subst pts. cbn [map fst snd py_min py_max ok].
  unfold draw_all. destruct draw; cbn [upd_img self img draw_on shape drawn lmList set_lmList].
  - unfold draw_on. cbn [shape drawn]. rewrite <- app_assoc. destruct d; reflexivity.
  - destruct d; reflexivity.
Qed.

(** The two ways [findPosition] finds nothing: a result without hands, and an
    index the guard [handNo < len(...)] turns away. *)
Lemma findPosition_nothing
      (i : image) (handNo : Z) (draw : bool) (d : HandDetector) (r : DetectionResult) :
  results d = Some r ->
  truthy (multi_hand_landmarks r) = false \/ len (hands_of r) <= handNo ->
  findPosition i handNo draw d = (ok ([], []), set_lmList [] d, i).
Proof.
  intros Hres Hcase.
  unfold findPosition, findPosition_body, enter, get_multi_hand_landmarks.
  unfold bind, modify, gets, lift, ret, when, ok. simpl. rewrite Hres.
  unfold hands_of in Hcase.
  destruct (multi_hand_landmarks r) as [[| h0 hs] |]; simpl; try reflexivity.
  destruct Hcase as [Hf | Hge]; [discriminate |].
  destruct (Z.ltb_spec handNo (len (h0 :: hs))); [lia | reflexivity].
Qed.

(** ** Landmark lists *)

Lemma wf_lmList_len (l : list (list Z)) : wf_lmList l = true -> len l = 21.
Proof.
  unfold wf_lmList, len. intros H. apply andb_prop in H as [H _].
  apply Nat.eqb_eq in H. rewrite H. reflexivity.
Qed.

Lemma wf_lmList_row (l : list (list Z)) (p : Z) :
  wf_lmList l = true -> 0 <= p <= 20 ->
  lm_row l p = [lm_id l p; lm_x l p; lm_y l p].
Proof.
  intros Hwf Hp. pose proof (wf_lmList_len l Hwf) as Hlen. unfold len in Hlen.
  apply andb_prop in Hwf as [_ Hrows].
  assert (Hin : In (lm_row l p) l) by (apply nth_In; lia).
  pose proof (proj1 (forallb_forall _ l) Hrows _ Hin) as H3.
  apply Nat.eqb_eq in H3.
  unfold lm_id, lm_x, lm_y.
  destruct (lm_row l p) as [| a [| b [| c [| ? ?]]]]; try discriminate.
  reflexivity.
Qed.

Lemma getitem_wf (l : list (list Z)) (p : Z) :
  wf_lmList l = true -> 0 <= p <= 20 ->
  py_getitem l p = ok [lm_id l p; lm_x l p; lm_y l p].
Proof.
  intros Hwf Hp. pose proof (wf_lmList_len l Hwf).
  rewrite (py_getitem_nth l p []) by lia.
  fold (lm_row l p). rewrite wf_lmList_row by assumption. reflexivity.
Qed.

Lemma getitem_wf_outside (l : list (list Z)) (p : Z) :
  wf_lmList l = true -> p < -21 \/ 20 < p -> py_getitem l p = raise IndexError.
Proof.
  intros Hwf Hp. pose proof (wf_lmList_len l Hwf).
  destruct Hp; [apply py_getitem_below | apply py_getitem_above]; lia.
Qed.

Lemma getitem_wf_wraps (l : list (list Z)) (p : Z) :
  wf_lmList l = true -> -21 <= p < 0 -> py_getitem l p = py_getitem l (p + 21).
Proof.
  intros Hwf Hp. pose proof (wf_lmList_len l Hwf) as Hlen.
  rewrite py_getitem_wraps by lia. rewrite Hlen. reflexivity.
Qed.

Lemma coord_wf_x (l : list (list Z)) (p : Z) :
  wf_lmList l = true -> 0 <= p <= 20 -> coord l p 1 = ok (lm_x l p).
Proof.
  intros Hwf Hp. unfold coord. rewrite getitem_wf by assumption. reflexivity.
Qed.

Lemma coord_wf_y (l : list (list Z)) (p : Z) :
  wf_lmList l = true -> 0 <= p <= 20 -> coord l p 2 = ok (lm_y l p).
Proof.
  intros Hwf Hp. unfold coord. rewrite getitem_wf by assumption. reflexivity.
Qed.

Lemma wf_lmList_nonempty (l : list (list Z)) :
  wf_lmList l = true -> exists e l', l = e :: l'.
Proof.
  intros Hwf. pose proof (wf_lmList_len l Hwf) as Hlen.
  destruct l as [| e l']; [discriminate | eauto].
Qed.

(** The list cached for a hand of 21 landmarks is such a list. *)
Lemma rows_from_wf (pts : list (Z * Z)) (k : Z) :
  length pts = 21%nat -> wf_lmList (rows_from k pts) = true.
Proof.
  intros Hlen. unfold wf_lmList. rewrite rows_from_length, Hlen. simpl.
  apply forallb_forall. intros e He.
  pose proof (proj1 (Forall_forall _ _) (rows_from_shape pts k) e He) as H3.
  cbv beta in H3. rewrite H3. reflexivity.
Qed.

(** ** fingersUp on a landmark list *)

Lemma finger_step_wf (l : list (list Z)) (fingers : list Z) (id tip : Z) :
  wf_lmList l = true ->
  py_getitem tipIds id = ok tip -> 2 <= tip <= 20 ->
  finger_step l fingers id =
  ok (fingers ++ [flag (lm_y l tip <? lm_y l (tip - 2))]).
Proof.
  intros Hwf Htip Hr. unfold finger_step. rewrite Htip. simpl rbind.
  rewrite !coord_wf_y by (assumption || lia). reflexivity.
Qed.

Lemma fingersUp_wf (d : HandDetector) :
  wf_lmList (lmList d) = true ->
  fingersUp d =
  ok [flag (lm_x (lmList d) 3 <? lm_x (lmList d) 4);
      flag (lm_y (lmList d) 8 <? lm_y (lmList d) 6);
      flag (lm_y (lmList d) 12 <? lm_y (lmList d) 10);
      flag (lm_y (lmList d) 16 <? lm_y (lmList d) 14);
      flag (lm_y (lmList d) 20 <? lm_y (lmList d) 18)].
Proof.
  intros Hwf. unfold fingersUp.
  destruct (wf_lmList_nonempty _ Hwf) as (e & l' & El).
  set (l := lmList d) in *. rewrite El at 1. subst l.
  change (py_getitem tipIds 0) with (ok (A := Z) 4). simpl rbind.
  rewrite !coord_wf_x by (assumption || lia). simpl rbind.
  cbn [rfold].
  rewrite (finger_step_wf _ _ 1 8) by (assumption || reflexivity || lia). simpl rbind.
  rewrite (finger_step_wf _ _ 2 12) by (assumption || reflexivity || lia). simpl rbind.
  rewrite (finger_step_wf _ _ 3 16) by (assumption || reflexivity || lia). simpl rbind.
  rewrite (finger_step_wf _ _ 4 20) by (assumption || reflexivity || lia). simpl rbind.
  reflexivity.
Qed.

(** ** [math.hypot] reads magnitudes only *)





(** ** findDistance on a landmark list *)

Lemma findDistance_rows (hypot : norm) (p1 p2 : Z) (i : image) (draw : bool)
      (d : HandDetector) (id1 x1 y1 id2 x2 y2 : Z) :
  py_getitem (lmList d) p1 = ok [id1; x1; y1] ->
  py_getitem (lmList d) p2 = ok [id2; x2; y2] ->
  findDistance hypot p1 p2 i draw d =
  (v <~ math_hypot hypot (x2 - x1) (y2 - y1) ;;
   ok (PyFloat v,
       draw_all draw (distance_marks x1 y1 x2 y2) i,
       [x1; y1; x2; y2; (x1 + x2) / 2; (y1 + y2) / 2])).
Proof.
  intros H1 H2. unfold findDistance.
  destruct (lmList d) as [| e l'] eqn:El.
  - rewrite py_getitem_nil in H1. discriminate.
  - rewrite H1, H2. simpl rbind.
    destruct (math_hypot hypot (x2 - x1) (y2 - y1)) as [err | v]; [reflexivity |].
    simpl rbind. unfold draw_all, distance_marks, draw_on.
    destruct draw; [| reflexivity]. simpl. rewrite <- !app_assoc. reflexivity.
Qed.

(** ** [int] of a float truncates toward zero: it is the quotient [Z.quot] of
    the signed mantissa by the power of two of a negative exponent *)

Lemma int_of_float_quot (s : bool) (m : positive) (e : Z) :
  e < 0 ->
  int_of_float (S754_finite s m e) =
  ok (Z.quot (cond_Zopp s (Zpos m)) (2 ^ (- e))).
Proof.
  intros He. unfold int_of_float. f_equal.
  assert (Hd : 0 < 2 ^ (- e)) by (apply Z.pow_pos_nonneg; lia).
  replace (Z.shiftl (Z.pos m) e) with (Z.pos m / 2 ^ (- e)).
  2:{ rewrite <- (Z.opp_involutive e) at 2. rewrite Z.shiftl_opp_r.
      symmetry. apply Z.shiftr_div_pow2. lia. }
  destruct s; simpl cond_Zopp.
  - change (Z.neg m) with (- Z.pos m). rewrite Z.quot_opp_l by lia.
    rewrite Z.quot_div_nonneg by lia. reflexivity.
  - rewrite Z.quot_div_nonneg by lia. reflexivity.
Qed.

(* ------------------------------------------------------------------ *)
(** * Properties of the calls in sequence, of exceptions and of drawing *)

Lemma skeleton_loop (draw : bool) (hs : list Hand) :
  forall (d : HandDetector) (sh : list Z) (dr : list draw_op) (xs ys : list Z),
    for_each
      (fun handLms => when draw (modify (upd_img (draw_on (draw_landmarks handLms)))))
      hs {| self := d; img := {| shape := sh; drawn := dr |}; xList := xs; yList := ys |}
    = (ok tt,
       {| self := d;
          img := {| shape := sh;
                    drawn := if draw then dr ++ map draw_landmarks hs else dr |};
          xList := xs; yList := ys |}).
Proof.
  induction hs as [| h0 hs IH]; intros d sh dr xs ys.
  - simpl. unfold ret, ok. rewrite app_nil_r. destruct draw; reflexivity.
  - rewrite for_each_cons. destruct draw.
    + unfold when, modify at 1, upd_img, draw_on. cbn [self img xList yList shape drawn].
      rewrite IH. simpl. rewrite <- app_assoc. reflexivity.
    + unfold when, ret at 1. rewrite IH. reflexivity.
Qed.

Lemma findHands_ok
      (process : image -> Res DetectionResult)
      (i : image) (draw : bool) (d : HandDetector) (r : DetectionResult) :
  process i = ok r ->
  findHands process i draw d =
  (ok (draw_all draw (map draw_landmarks (hands_of r)) i),
   set_results r d,
   draw_all draw (map draw_landmarks (hands_of r)) i).
Proof.
  intros Hproc. destruct i as [sh dr].
  unfold findHands, findHands_body, enter, get_multi_hand_landmarks.
  unfold bind at 1 2 3 4. unfold gets at 1. unfold lift at 1.
  cbn [img]. rewrite Hproc. unfold ok at 1.
  unfold modify at 1, upd_self. cbn [self img xList yList results set_results].
  unfold ok at 1. unfold hands_of, draw_all.
  destruct (multi_hand_landmarks r) as [[| h0 hs] |]; cbn [truthy when].
  - unfold bind, ret, gets. simpl. rewrite app_nil_r. destruct draw; reflexivity.
  - unfold bind at 1. rewrite skeleton_loop. unfold ok at 1, gets.
    destruct draw; reflexivity.
  - unfold bind, ret, gets. simpl. rewrite app_nil_r. destruct draw; reflexivity.
Qed.

Lemma findHands_raise
      (process : image -> Res DetectionResult)
      (i : image) (draw : bool) (d : HandDetector) (e : pyerr) :
  process i = raise e -> findHands process i draw d = (raise e, d, i).
Proof.
  intros Hproc.
  unfold findHands, findHands_body, enter, bind, gets, lift. simpl.
  rewrite Hproc. reflexivity.
Qed.

Lemma findPosition_selects
      (i : image) (handNo : Z) (draw : bool) (d : HandDetector) (r : DetectionResult) :
  results d = Some r ->
  truthy (multi_hand_landmarks r) = true ->
  handNo < len (hands_of r) ->
  findPosition i handNo draw d =
  match py_getitem (hands_of r) handNo with
  | inl e => (raise e, set_lmList [] d, i)
  | inr myHand => run (locate_selected myHand draw) (set_lmList [] d) i
  end.
Proof.
  intros Hres Htruthy Hlt.
  unfold findPosition, run, findPosition_body, locate_selected, enter,
    get_multi_hand_landmarks.
  unfold bind at 1 2 3 4. unfold modify at 1 2 3.
  unfold upd_xList, upd_yList, upd_self.
  cbn [self img xList yList results set_lmList].
  rewrite Hres. unfold ok at 1. rewrite Htruthy.
  unfold hands_of in *.
  destruct (multi_hand_landmarks r) as [hands |]; [| discriminate].
  destruct (Z.ltb_spec handNo (len hands)); [| lia].
  unfold bind at 1. unfold lift at 1.
  destruct (py_getitem hands handNo) as [e | myHand]; reflexivity.
Qed.

Lemma unpack3_bad {A : Type} (l : list A) :
  length l <> 3%nat -> unpack3 l = raise ValueError.
Proof.
  intros Hlen. destruct l as [| a [| b [| c [| x l]]]]; try reflexivity.
  simpl in Hlen. congruence.
Qed.

Lemma position_step_raise (draw : bool) (w h c k : Z) (lm : Landmark.t) (e : pyerr)
      (F : Frame) :
  shape (img F) = [h; w; c] ->
  to_pixel w h lm = raise e ->
  position_step draw (k, lm) F = (raise e, F).
Proof.
  intros Hsh Hlm. unfold position_step, bind, gets, lift. rewrite Hsh. simpl.
  rewrite Hlm. reflexivity.
Qed.

Lemma position_loop_raise (draw : bool) (w h c : Z) (bad : Landmark.t)
      (rest : list Landmark.t) (e : pyerr) (good : list Landmark.t) :
  forall (k : Z) (pts : list (Z * Z)) (d : HandDetector)
         (dr : list draw_op) (xs ys : list Z),
    pixels w h good = ok pts ->
    to_pixel w h bad = raise e ->
    for_each (position_step draw) (enumerate_from k (good ++ bad :: rest))
      {| self := d; img := {| shape := [h; w; c]; drawn := dr |};
         xList := xs; yList := ys |}
    = (raise e,
       {| self := set_lmList (lmList d ++ rows_from k pts) d;
          img := {| shape := [h; w; c];
                    drawn := if draw then dr ++ markers pts else dr |};
          xList := xs ++ map fst pts;
          yList := ys ++ map snd pts |}).
Proof.
  induction good as [| lm good IH]; intros k pts d dr xs ys Hpx Hbad; simpl in Hpx.
  - injection Hpx as <-. cbn [app enumerate_from]. rewrite for_each_cons.
    rewrite (position_step_raise draw w h c k bad e) by (reflexivity || assumption).
    unfold raise, rows_from. simpl. rewrite !app_nil_r.
    destruct d, draw; reflexivity.
  - destruct (to_pixel w h lm) as [e0 | [cx cy]] eqn:Hlm; simpl in Hpx; [discriminate |].
    destruct (pixels w h good) as [e0 | cs] eqn:Hcs; simpl in Hpx; [discriminate |].
    injection Hpx as <-.
    cbn [app enumerate_from]. rewrite for_each_cons.
    rewrite (position_step_ok draw w h c k cx cy lm) by exact Hlm.
    unfold ok at 1.
    rewrite (IH (k + 1) cs) by (reflexivity || assumption).
    unfold rows_from, markers. cbn [enumerate_from map fst snd row set_lmList lmList
      mode maxHands detectionCon trackCon results].
    rewrite <- !app_assoc.
    destruct draw; rewrite <- ?app_assoc; reflexivity.
Qed.

Lemma position_step_untouched (d : HandDetector) (i : image) (draw : bool)
      (p : Z * Landmark.t) (F : Frame) :
  untouched d i draw F -> untouched d i draw (snd (position_step draw p F)).
Proof.
  intros HF. destruct p as [k lm]. destruct F as [d0 i0 xs ys].
  unfold position_step, bind, gets, lift, modify, when. simpl.
  destruct (unpack3 (shape i0)) as [e | [[h w] c]]; simpl; [exact HF |].
  destruct (to_pixel w h lm) as [e | [cx cy]]; simpl; [exact HF |].
  destruct HF as (H1 & H2 & H3 & H4 & H5 & H6 & [ops H7] & H8).
  unfold untouched, upd_img, upd_self, upd_xList, upd_yList, draw_on in *.
  simpl in *.
  destruct draw; simpl; repeat (split; [assumption |]).
  - split; [| discriminate].
    exists (ops ++ [circle (cx, cy) 7 (0, 255, 0) FILLED]).
    rewrite H7, app_assoc. reflexivity.
  - split; [exists ops; exact H7 | exact H8].
Qed.

Lemma findPosition_body_untouched
      (i : image) (handNo : Z) (draw : bool) (d : HandDetector) :
  untouched d i draw (snd (findPosition_body handNo draw (enter d i))).
Proof.
  assert (H0 : untouched d i draw
                 {| self := set_lmList [] d; img := i; xList := []; yList := [] |}).
  { repeat (split; [reflexivity |]). split; [| reflexivity].
    exists []. rewrite app_nil_r. reflexivity. }
  unfold findPosition_body, enter, get_multi_hand_landmarks.
  unfold bind, modify, gets, lift, ret, when, ok, raise. simpl.
  destruct (results d) as [r |]; [| exact H0].
  destruct (multi_hand_landmarks r) as [[| h0 hs] |]; simpl; try exact H0.
  destruct (handNo <? len (h0 :: hs)); [| exact H0].
  destruct (py_getitem (h0 :: hs) handNo) as [e | myHand]; [exact H0 |].
  pose proof (for_each_invariant (untouched d i draw) (position_step draw)
                (position_step_untouched d i draw)
                (enumerate (landmark myHand)) _ H0) as H1.
  destruct (for_each (position_step draw) (enumerate (landmark myHand)) _)
    as [[e | []] F1]; [exact H1 |].
  simpl in H1.
  destruct (py_min (xList F1)) as [e | xmin]; [exact H1 |].
  destruct (py_max (xList F1)) as [e | xmax]; [exact H1 |].
  destruct (py_min (yList F1)) as [e | ymin]; [exact H1 |].
  destruct (py_max (yList F1)) as [e | ymax]; [exact H1 |].
  destruct H1 as (H1 & H2 & H3 & H4 & H5 & H6 & [ops H7] & H8).
  unfold untouched, upd_img, draw_on.
  destruct draw; simpl; repeat (split; [assumption |]).
  - split; [| discriminate]. eexists. rewrite H7, <- app_assoc. reflexivity.
  - split; [exists ops; exact H7 | exact H8].
Qed.

Lemma position_step_bad_shape (draw : bool) (p : Z * Landmark.t) (F : Frame) :
  length (shape (img F)) <> 3%nat ->
  position_step draw p F = (raise ValueError, F).
Proof.
  intros Hlen. destruct p as [k lm]. unfold position_step, bind, gets, lift.
  rewrite (unpack3_bad _ Hlen). reflexivity.
Qed.

Lemma fold_min_in (l : list Z) (a : Z) :
  fold_left Z.min l a = a \/ In (fold_left Z.min l a) l.
Proof.
  revert a. induction l as [| b l IH]; intros a; simpl; [left; reflexivity |].
  destruct (IH (Z.min a b)) as [H | H]; [| right; right; exact H].
  rewrite H. destruct (Z.min_spec a b) as [[_ ->] | [_ ->]]; [left | right; left];
    reflexivity.
Qed.

Lemma fold_max_in (l : list Z) (a : Z) :
  fold_left Z.max l a = a \/ In (fold_left Z.max l a) l.
Proof.
  revert a. induction l as [| b l IH]; intros a; simpl; [left; reflexivity |].
  destruct (IH (Z.max a b)) as [H | H]; [| right; right; exact H].
  rewrite H. destruct (Z.max_spec a b) as [[_ ->] | [_ ->]]; [right; left | left];
    reflexivity.
Qed.

Lemma py_min_in (l : list Z) (m : Z) : py_min l = ok m -> In m l.
Proof.
  destruct l as [| a l]; simpl; [discriminate |].
  intros [= <-]. destruct (fold_min_in l a) as [-> | H]; [left | right]; trivial.
Qed.

Lemma py_max_in (l : list Z) (m : Z) : py_max l = ok m -> In m l.
Proof.
  destruct l as [| a l]; simpl; [discriminate |].
  intros [= <-]. destruct (fold_max_in l a) as [-> | H]; [left | right]; trivial.
Qed.

Lemma row_x_attained (rows : list (Z * (Z * Z))) (v : Z) :
  In v (map row_x rows) -> exists id y, In [id; v; y] (map row rows).
Proof.
  intros H. apply in_map_iff in H as ([id [x y]] & <- & Hin).
  exists id, y. apply in_map_iff. exists (id, (x, y)). split; [reflexivity | exact Hin].
Qed.

Lemma row_y_attained (rows : list (Z * (Z * Z))) (v : Z) :
  In v (map row_y rows) -> exists id x, In [id; x; v] (map row rows).
Proof.
  intros H. apply in_map_iff in H as ([id [x y]] & <- & Hin).
  exists id, x. apply in_map_iff. exists (id, (x, y)). split; [reflexivity | exact Hin].
Qed.

Lemma position_step_painted (i : image) (p : Z * Landmark.t) (F : Frame) :
  painted i F -> painted i (snd (position_step true p F)).
Proof.
  intros HF. destruct p as [k lm]. destruct F as [d0 i0 xs ys].
  unfold position_step, bind, gets, lift, modify, when. simpl.
  destruct (unpack3 (shape i0)) as [e | [[h w] c]]; simpl; [exact HF |].
  destruct (to_pixel w h lm) as [e | [cx cy]]; simpl; [exact HF |].
  destruct HF as [H1 H2].
  unfold painted, upd_img, upd_self, upd_xList, upd_yList, draw_on, append in *.
  simpl in *. split; [exact H1 |].
  rewrite H2, map_app, <- app_assoc. reflexivity.
Qed.

Lemma draw_all_shape (draw : bool) (ops : list draw_op) (i : image) :
  shape (draw_all draw ops i) = shape i.
Proof. unfold draw_all. destruct draw; reflexivity. Qed.

Lemma forallb_converts_pixels (w h : Z) (lms : list Landmark.t) :
  forallb (converts w h) lms = true -> exists pts, pixels w h lms = ok pts.
Proof.
  intros Hconv. apply pixels_total. intros lm Hin.
  pose proof (proj1 (forallb_forall _ _) Hconv lm Hin) as Hc.
  unfold converts in Hc. destruct (to_pixel w h lm) as [e | p]; [discriminate |].
  exists p. reflexivity.
Qed.

Lemma rows_from_id (pts : list (Z * Z)) (p : Z) :
  0 <= p < len pts -> lm_id (rows_from 0 pts) p = p.
Proof.
  intros Hp. unfold len in Hp. unfold lm_id, lm_row.
  destruct (nth_error pts (Z.to_nat p)) as [[cx cy] |] eqn:Hn.
  - rewrite (nth_error_nth _ _ _ (rows_from_nth pts 0 _ cx cy Hn)). simpl. lia.
  - apply nth_error_None in Hn. lia.
Qed.

Lemma coord_above (l : list (list Z)) (p j : Z) :
  len l <= p -> coord l p j = raise IndexError.
Proof.
  intros Hp. unfold coord. rewrite py_getitem_above by exact Hp. reflexivity.
Qed.

Lemma coord_rows (l : list (list Z)) (p : Z) :
  Forall (fun e => length e = 3%nat) l -> 0 <= p < len l ->
  coord l p 1 = ok (lm_x l p) /\ coord l p 2 = ok (lm_y l p).
Proof.
  intros Hrows Hp. unfold coord, len in *.
  rewrite (py_getitem_nth l p []) by (unfold len; lia).
  fold (lm_row l p). unfold lm_x, lm_y.
  assert (Hin : In (lm_row l p) l) by (apply nth_In; lia).
  pose proof (proj1 (Forall_forall _ l) Hrows _ Hin) as H3. cbv beta in H3.
  destruct (lm_row l p) as [| a [| b [| c [| ? ?]]]]; try discriminate.
  split; reflexivity.
Qed.

Lemma finger_step_rows (l : list (list Z)) (fingers : list Z) (id tip : Z) :
  Forall (fun e => length e = 3%nat) l ->
  py_getitem tipIds id = ok tip -> 2 <= tip ->
  (len l <= tip -> finger_step l fingers id = raise IndexError) /\
  (tip < len l ->
   finger_step l fingers id = ok (fingers ++ [flag (lm_y l tip <? lm_y l (tip - 2))])).
Proof.
  intros Hrows Htip Hr. unfold finger_step. rewrite Htip. simpl rbind. split; intros Hlen.
  - rewrite coord_above by exact Hlen. reflexivity.
  - rewrite (proj2 (coord_rows l tip Hrows ltac:(lia))). simpl rbind.
    rewrite (proj2 (coord_rows l (tip - 2) Hrows ltac:(lia))). reflexivity.
Qed.

Lemma map_rows_wf (fx fy : Z -> Z) (l : list (list Z)) :
  wf_lmList l = true -> wf_lmList (map_rows fx fy l) = true.
Proof.
  unfold wf_lmList, map_rows. intros H. apply andb_prop in H as [Hlen Hrows].
  rewrite length_map, Hlen. simpl.
  apply forallb_forall. intros e He.
  apply in_map_iff in He as (e0 & <- & Hin).
  pose proof (proj1 (forallb_forall _ l) Hrows e0 Hin) as H3.
  destruct e0 as [| a [| b [| c [| ? ?]]]]; try discriminate. reflexivity.
Qed.

Lemma map_rows_coords (fx fy : Z -> Z) (l : list (list Z)) (p : Z) :
  wf_lmList l = true -> 0 <= p <= 20 ->
  lm_x (map_rows fx fy l) p = fx (lm_x l p) /\
  lm_y (map_rows fx fy l) p = fy (lm_y l p).
Proof.
  intros Hwf Hp. pose proof (wf_lmList_len l Hwf) as Hlen. unfold len in Hlen.
  pose proof (wf_lmList_row l p Hwf Hp) as Hrow.
  unfold lm_x at 1, lm_y at 1, lm_row, map_rows.
  set (f := fun e : list Z => match e with
                              | [id; x; y] => [id; fx x; fy y]
                              | _ => e
                              end).
  change (nth (Z.to_nat p) (map f l) []) with (nth (Z.to_nat p) (map f l) (f [])).
  rewrite map_nth. fold (lm_row l p). rewrite Hrow. split; reflexivity.
Qed.

Lemma findDistance_cached (hypot : norm) (p1 p2 : Z) (i : image) (draw : bool)
      (d : HandDetector) :
  lmList d <> [] ->
  findDistance hypot p1 p2 i draw d =
  (e1 <~ py_getitem (lmList d) p1 ;;
   xy1 <~ unpack2 (slice_from_1 e1) ;;
   e2 <~ py_getitem (lmList d) p2 ;;
   xy2 <~ unpack2 (slice_from_1 e2) ;;
   v <~ math_hypot hypot (fst xy2 - fst xy1) (snd xy2 - snd xy1) ;;
   ok (PyFloat v,
       draw_all draw (distance_marks (fst xy1) (snd xy1) (fst xy2) (snd xy2)) i,
       [fst xy1; snd xy1; fst xy2; snd xy2;
        (fst xy1 + fst xy2) / 2; (snd xy1 + snd xy2) / 2])).
Proof.
  intros Hne. unfold findDistance.
  destruct (lmList d) as [| e0 l0]; [congruence |].
  destruct (py_getitem (e0 :: l0) p1) as [e | e1]; [reflexivity |]. simpl rbind.
  destruct (unpack2 (slice_from_1 e1)) as [e | [x1 y1]]; [reflexivity |]. simpl rbind.
  destruct (py_getitem (e0 :: l0) p2) as [e | e2]; [reflexivity |]. simpl rbind.
  destruct (unpack2 (slice_from_1 e2)) as [e | [x2 y2]]; [reflexivity |]. simpl.
  destruct (math_hypot hypot (x2 - x1) (y2 - y1)) as [e | v]; [reflexivity |]. simpl.
  unfold draw_all, distance_marks, draw_on.
  destruct draw; [| reflexivity]. simpl. rewrite <- !app_assoc. reflexivity.
Qed.

Lemma unpack2_slice (e : list Z) (x y : Z) :
  unpack2 (slice_from_1 e) = ok (x, y) -> exists id, e = [id; x; y].
Proof.
  destruct e as [| id [| a [| b [| ? ?]]]]; simpl; try discriminate.
  intros [= <- <-]. exists id. reflexivity.
Qed.

Lemma findDistance_returns (hypot : norm) (p1 p2 : Z) (i : image) (draw : bool)
      (d : HandDetector) (v : float) (i' : image) (cs : list Z) :
  findDistance hypot p1 p2 i draw d = ok (PyFloat v, i', cs) ->
  exists id1 x1 y1 id2 x2 y2,
    py_getitem (lmList d) p1 = ok [id1; x1; y1] /\
    py_getitem (lmList d) p2 = ok [id2; x2; y2] /\
    math_hypot hypot (x2 - x1) (y2 - y1) = ok v /\
    i' = draw_all draw (distance_marks x1 y1 x2 y2) i /\
    cs = [x1; y1; x2; y2; (x1 + x2) / 2; (y1 + y2) / 2].
Proof.
  intros Hcall.
  assert (Hne : lmList d <> []).
  { intros El. unfold findDistance in Hcall. rewrite El in Hcall. discriminate. }
  rewrite (findDistance_cached hypot p1 p2 i draw d Hne) in Hcall.
  destruct (py_getitem (lmList d) p1) as [e | e1]; [discriminate |]. simpl rbind in Hcall.
  destruct (unpack2 (slice_from_1 e1)) as [e | [x1 y1]] eqn:U1; [discriminate |].
  simpl rbind in Hcall.
  destruct (py_getitem (lmList d) p2) as [e | e2]; [discriminate |]. simpl rbind in Hcall.
  destruct (unpack2 (slice_from_1 e2)) as [e | [x2 y2]] eqn:U2; [discriminate |].
  simpl in Hcall.
  destruct (math_hypot hypot (x2 - x1) (y2 - y1)) as [e | v'] eqn:Hv; [discriminate |].
  simpl in Hcall. injection Hcall as <- <- <-.
  destruct (unpack2_slice _ _ _ U1) as [id1 ->].
  destruct (unpack2_slice _ _ _ U2) as [id2 ->].
  exists id1, x1, y1, id2, x2, y2.
  split; [reflexivity |]. split; [reflexivity |]. split; [exact Hv |].
  split; reflexivity.
Qed.

Lemma binary_round_aux_sign (s : bool) (m e : Z) (l : location) :
  match binary_round_aux prec emax s m e l with
  | S754_finite s' _ _ => s' = s
  | _ => True
  end.
Proof.
  unfold binary_round_aux.
  destruct (shr_fexp prec emax m e l) as [mrs' e'].
  destruct (shr_fexp prec emax _ e' loc_Exact) as [mrs'' e''].
  destruct (shr_m mrs''); trivial.
  destruct (e'' <=? emax - prec); trivial.
Qed.

Lemma float_of_int_not_negative (n : Z) (f : float) :
  0 <= n -> float_of_int n = ok f -> not_negative f = true.
Proof.
  intros Hn. unfold float_of_int, float_lit, binary_normalize.
  destruct n as [| p | p]; [| | lia].
  - intros [= <-]. reflexivity.
  - unfold binary_round.
    destruct (shl_align p 0 _) as [mz ez].
    pose proof (binary_round_aux_sign false (Z.pos mz) ez loc_Exact) as Hs.
    destruct (binary_round_aux prec emax false (Z.pos mz) ez loc_Exact);
      try discriminate; intros [= <-]; try reflexivity.
    simpl. rewrite Hs. reflexivity.
Qed.

Lemma SFmul_not_negative (x f : float) :
  not_negative x = true -> not_negative f = true ->
  not_negative (SFmul prec emax x f) = true.
Proof.
  destruct x as [sx | sx | | sx mx ex], f as [sf | sf | | sf mf ef];
    simpl; try reflexivity.
  intros Hx Hf. destruct sx, sf; try discriminate.
  pose proof (binary_round_aux_sign false (Z.pos (mx * mf)) (ex + ef) loc_Exact) as Hs.
  simpl xorb.
  destruct (binary_round_aux prec emax false (Z.pos (mx * mf)) (ex + ef) loc_Exact);
    try reflexivity.
  simpl. rewrite Hs. reflexivity.
Qed.

Lemma int_of_float_not_negative (f : float) (n : Z) :
  not_negative f = true -> int_of_float f = ok n -> 0 <= n.
Proof.
  destruct f as [s | s | | s m e]; simpl; try discriminate.
  - intros _ [= <-]. lia.
  - intros Hs [= <-]. destruct s; [discriminate |]. simpl.
    apply Z.shiftl_nonneg. lia.
Qed.

Lemma to_pixel_not_negative (w h : Z) (lm : Landmark.t) (cx cy : Z) :
  0 <= w -> 0 <= h ->
  in_first_quadrant lm = true ->
  to_pixel w h lm = ok (cx, cy) ->
  0 <= cx /\ 0 <= cy.
Proof.
  intros Hw Hh Hq. apply andb_prop in Hq as [Hx Hy].
  unfold to_pixel, float_mul_int.
  destruct (float_of_int w) as [e | fw] eqn:Ew; simpl; [discriminate |].
  destruct (int_of_float (SFmul prec emax (Landmark.x lm) fw)) as [e | cx'] eqn:Ex;
    simpl; [discriminate |].
  destruct (float_of_int h) as [e | fh] eqn:Eh; simpl; [discriminate |].
  destruct (int_of_float (SFmul prec emax (Landmark.y lm) fh)) as [e | cy'] eqn:Ey;
    simpl; [discriminate |].
  intros [= <- <-]. split.
  - apply (int_of_float_not_negative _ _
             (SFmul_not_negative _ _ Hx (float_of_int_not_negative w fw Hw Ew)) Ex).
  - apply (int_of_float_not_negative _ _
             (SFmul_not_negative _ _ Hy (float_of_int_not_negative h fh Hh Eh)) Ey).
Qed.

Lemma pixels_in (w h : Z) (lms : list Landmark.t) :
  forall (pts : list (Z * Z)) (c : Z * Z),
    pixels w h lms = ok pts -> In c pts ->
    exists lm, In lm lms /\ to_pixel w h lm = ok c.
Proof.
  induction lms as [| lm0 lms IH]; intros pts c Hpx Hin; simpl in Hpx.
  - injection Hpx as <-. destruct Hin.
  - destruct (to_pixel w h lm0) as [e | c0] eqn:H0; simpl in Hpx; [discriminate |].
    destruct (pixels w h lms) as [e | cs] eqn:Hcs; simpl in Hpx; [discriminate |].
    injection Hpx as <-. destruct Hin as [<- | Hin].
    + exists lm0. split; [left; reflexivity | exact H0].
    + destruct (IH cs c eq_refl Hin) as (lm & Hl & Hc).
      exists lm. split; [right; exact Hl | exact Hc].
Qed.

Lemma rows_from_in (pts : list (Z * Z)) :
  forall (k : Z) (e : list Z),
    In e (rows_from k pts) -> exists id cx cy, e = [id; cx; cy] /\ In (cx, cy) pts.
Proof.
  induction pts as [| [cx0 cy0] pts IH]; intros k e Hin.
  - destruct Hin.
  - unfold rows_from in Hin. simpl in Hin. destruct Hin as [<- | Hin].
    + exists k, cx0, cy0. split; [reflexivity | left; reflexivity].
    + destruct (IH (k + 1) e Hin) as (id & cx & cy & -> & Hp).
      exists id, cx, cy. split; [reflexivity | right; exact Hp].
Qed.

Lemma for_each_sim {S A : Type} (R : S -> S -> Prop) (body body' : A -> M S unit) :
  (forall a s s', R s s' ->
     fst (body a s) = fst (body' a s') /\ R (snd (body a s)) (snd (body' a s'))) ->
  forall l s s', R s s' ->
    fst (for_each body l s) = fst (for_each body' l s') /\
    R (snd (for_each body l s)) (snd (for_each body' l s')).
Proof.
  intros Hbody. induction l as [| a l IH]; intros s s' HR.
  - split; [reflexivity | exact HR].
  - rewrite !for_each_cons. destruct (Hbody a s s' HR) as [Hres Hst].
    destruct (body a s) as [[e | []] s1]; destruct (body' a s') as [[e' | []] s1'];
      simpl in Hres, Hst; try discriminate.
    + split; [exact Hres | exact Hst].
    + apply IH, Hst.
Qed.

Lemma bind_run {S A B : Type} (c : M S A) (k : A -> M S B) (s : S) :
  bind c k s =
  match c s with
  | (inl e, s') => (inl e, s')
  | (inr a, s') => k a s'
  end.
Proof. reflexivity. Qed.

Lemma position_step_sim (draw draw' : bool) (p : Z * Landmark.t) (F F' : Frame) :
  same_but_drawing F F' ->
  fst (position_step draw p F) = fst (position_step draw' p F') /\
  same_but_drawing (snd (position_step draw p F)) (snd (position_step draw' p F')).
Proof.
  intros (Hs & Hx & Hy & Hsh). destruct p as [k lm].
  destruct F as [d0 i0 xs ys], F' as [d0' i0' xs' ys']. simpl in Hs, Hx, Hy, Hsh.
  subst d0' xs' ys'.
  unfold position_step, bind, gets, lift, modify, when. simpl. rewrite <- Hsh.
  destruct (unpack3 (shape i0)) as [e | [[h w] c]]; simpl;
    [split; [reflexivity | repeat split; assumption] |].
  destruct (to_pixel w h lm) as [e | [cx cy]]; simpl;
    [split; [reflexivity | repeat split; assumption] |].
  destruct draw, draw'; simpl; (split; [reflexivity | repeat split; assumption]).
Qed.

Lemma locate_selected_sim (myHand : Hand) (draw draw' : bool) (F F' : Frame) :
  same_but_drawing F F' ->
  fst (locate_selected myHand draw F) = fst (locate_selected myHand draw' F') /\
  self (snd (locate_selected myHand draw F)) = self (snd (locate_selected myHand draw' F')).
Proof.
  intros HR. unfold locate_selected.
  destruct (for_each_sim same_but_drawing (position_step draw) (position_step draw')
              (position_step_sim draw draw') (enumerate (landmark myHand)) F F' HR)
    as [Hres Hst].
  rewrite (bind_run (for_each (position_step draw) (enumerate (landmark myHand)))).
  rewrite (bind_run (for_each (position_step draw') (enumerate (landmark myHand)))).
  destruct (for_each (position_step draw) (enumerate (landmark myHand)) F)
    as [[e | []] F1];
    destruct (for_each (position_step draw') (enumerate (landmark myHand)) F')
      as [[e' | []] F1']; simpl in Hres, Hst; try discriminate.
  - injection Hres as ->. split; [reflexivity | apply Hst].
  - destruct Hst as (Hs & Hx & Hy & Hsh).
    unfold bind, gets, lift, modify, when, ret. rewrite <- Hx, <- Hy.
    destruct (py_min (xList F1)) as [e | xmin]; [split; [reflexivity | exact Hs] |].
    destruct (py_max (xList F1)) as [e | xmax]; [split; [reflexivity | exact Hs] |].
    destruct (py_min (yList F1)) as [e | ymin]; [split; [reflexivity | exact Hs] |].
    destruct (py_max (yList F1)) as [e | ymax]; [split; [reflexivity | exact Hs] |].
    destruct draw, draw'; simpl; rewrite Hs; split; reflexivity.
Qed.

Lemma findPosition_no_results (i : image) (handNo : Z) (draw : bool) (d : HandDetector) :
  results d = None ->
  findPosition i handNo draw d = (raise AttributeError, set_lmList [] d, i).
Proof.
  intros Hres.
  unfold findPosition, findPosition_body, enter, get_multi_hand_landmarks.
  unfold bind, modify. simpl. rewrite Hres. reflexivity.
Qed.

Lemma findPosition_sim
      (i j : image) (handNo : Z) (draw draw' : bool) (d : HandDetector)
      (stale : list (list Z)) :
  shape i = shape j ->
  fst (findPosition i handNo draw d) =
  fst (findPosition j handNo draw' (set_lmList stale d)).
Proof.
  intros Hsh.
  destruct (results d) as [r |] eqn:Hres.
  2:{ rewrite (findPosition_no_results i handNo draw d Hres).
      rewrite (findPosition_no_results j handNo draw' (set_lmList stale d) Hres).
      reflexivity. }
  destruct (truthy (multi_hand_landmarks r)) eqn:Htruthy.
  2:{ rewrite (findPosition_nothing i handNo draw d r Hres (or_introl Htruthy)).
      rewrite (findPosition_nothing j handNo draw' (set_lmList stale d) r Hres
                 (or_introl Htruthy)).
      reflexivity. }
  destruct (Z.lt_ge_cases handNo (len (hands_of r))) as [Hlt | Hge].
  2:{ rewrite (findPosition_nothing i handNo draw d r Hres (or_intror Hge)).
      rewrite (findPosition_nothing j handNo draw' (set_lmList stale d) r Hres
                 (or_intror Hge)).
      reflexivity. }
  rewrite (findPosition_selects i handNo draw d r Hres Htruthy Hlt).
  rewrite (findPosition_selects j handNo draw' (set_lmList stale d) r Hres Htruthy Hlt).
  destruct (py_getitem (hands_of r) handNo) as [e | myHand]; [reflexivity |].
  unfold run.
  destruct (locate_selected_sim myHand draw draw'
              (enter (set_lmList [] d) i)
              (enter (set_lmList [] (set_lmList stale d)) j)) as [Hr Hs].
  { repeat split. exact Hsh. }
  destruct (locate_selected myHand draw (enter (set_lmList [] d) i)) as [res F].
  destruct (locate_selected myHand draw' (enter (set_lmList [] (set_lmList stale d)) j))
    as [res' F'].
  simpl in Hr, Hs. simpl. rewrite Hr, Hs. reflexivity.
Qed.

Lemma findPosition_leaves (i : image) (handNo : Z) (draw : bool) (d : HandDetector)
      (res : Res (list (list Z) * list Z)) (d' : HandDetector) (i' : image) :
  findPosition i handNo draw d = (res, d', i') ->
  d' = set_lmList (lmList d') d /\ shape i' = shape i.
Proof.
  intros Hcall.
  pose proof (findPosition_body_untouched i handNo draw d) as Hun.
  unfold findPosition in Hcall.
  destruct (findPosition_body handNo draw (enter d i)) as [r F].
  injection Hcall as _ <- <-.
  destruct Hun as (H1 & H2 & H3 & H4 & H5 & H6 & _ & _). simpl in *.
  split; [| exact H6].
  destruct (self F), d. simpl in *. subst. reflexivity.
Qed.

(** ** From a returning call of findPosition back to the landmarks *)

Lemma pixels_fails (w h : Z) (lms : list Landmark.t) (e : pyerr) :
  pixels w h lms = raise e ->
  exists good bad rest pts,
    lms = good ++ bad :: rest /\
    pixels w h good = ok pts /\
    to_pixel w h bad = raise e.
Proof.
  induction lms as [| lm lms IH]; simpl; [discriminate |].
  destruct (to_pixel w h lm) as [e0 | c0] eqn:H0; simpl.
  - intros [= <-]. exists [], lm, lms, []. repeat split. exact H0.
  - destruct (pixels w h lms) as [e1 | cs] eqn:Hcs; simpl; [| discriminate].
    intros [= <-]. destruct (IH eq_refl) as (good & bad & rest & pts & -> & Hg & Hb).
    exists (lm :: good), bad, rest, (c0 :: pts). repeat split; [| exact Hb].
    simpl. rewrite H0, Hg. reflexivity.
Qed.

Lemma selected_is_detected (r : DetectionResult) (hands : list Hand) (handNo : Z)
      (myHand : Hand) :
  multi_hand_landmarks r = Some hands ->
  py_getitem hands handNo = ok myHand ->
  hands_of r = hands /\ truthy (multi_hand_landmarks r) = true.
Proof.
  intros Hmhl Hget. unfold hands_of. rewrite Hmhl. split; [reflexivity |].
  destruct hands; [| reflexivity].
  rewrite py_getitem_nil in Hget. discriminate.
Qed.

Lemma findPosition_loop_raise
      (i : image) (handNo : Z) (draw : bool) (d : HandDetector)
      (r : DetectionResult) (myHand : Hand) (h w c : Z)
      (good rest : list Landmark.t) (bad : Landmark.t)
      (pts : list (Z * Z)) (e : pyerr) :
  results d = Some r ->
  truthy (multi_hand_landmarks r) = true ->
  handNo < len (hands_of r) ->
  py_getitem (hands_of r) handNo = ok myHand ->
  shape i = [h; w; c] ->
  landmark myHand = good ++ bad :: rest ->
  pixels w h good = ok pts ->
  to_pixel w h bad = raise e ->
  findPosition i handNo draw d =
  (raise e, set_lmList (rows_from 0 pts) d, draw_all draw (markers pts) i).
Proof.
  intros Hres Htruthy Hlt Hget Hsh Hsplit Hpx Hbad.
  rewrite (findPosition_selects i handNo draw d r Hres Htruthy Hlt), Hget.
  unfold ok. cbv beta iota.
  destruct i as [sh dr]. simpl in Hsh. subst sh.
  unfold run, locate_selected, enter, enumerate. rewrite Hsplit.
  unfold bind at 1.
  rewrite (position_loop_raise draw w h c bad rest e good 0 pts) by assumption.
  unfold raise, draw_all. simpl. destruct d, draw; reflexivity.
Qed.

Lemma findPosition_no_landmarks
      (i : image) (handNo : Z) (draw : bool) (d : HandDetector)
      (r : DetectionResult) (myHand : Hand) :
  results d = Some r ->
  truthy (multi_hand_landmarks r) = true ->
  handNo < len (hands_of r) ->
  py_getitem (hands_of r) handNo = ok myHand ->
  landmark myHand = [] ->
  findPosition i handNo draw d = (raise ValueError, set_lmList [] d, i).
Proof.
  intros Hres Htruthy Hlt Hget Hnil.
  rewrite (findPosition_selects i handNo draw d r Hres Htruthy Hlt), Hget.
  unfold ok. cbv beta iota.
  unfold run, locate_selected, enter, enumerate. rewrite Hnil. reflexivity.
Qed.

(** A call that selects a hand and returns has converted every landmark of
    the hand: its list is the rows of their pixels. *)
Lemma findPosition_returns_rows
      (i : image) (handNo : Z) (draw : bool) (d : HandDetector)
      (r : DetectionResult) (hands : list Hand) (myHand : Hand) (h w c : Z)
      (lms : list (list Z)) (bb : list Z) (d' : HandDetector) (i' : image) :
  results d = Some r ->
  multi_hand_landmarks r = Some hands ->
  handNo < len hands ->
  py_getitem hands handNo = ok myHand ->
  shape i = [h; w; c] ->
  findPosition i handNo draw d = (ok (lms, bb), d', i') ->
  exists pts xmin ymin xmax ymax,
    pixels w h (landmark myHand) = ok pts /\ pts <> [] /\
    lms = rows_from 0 pts /\ d' = set_lmList (rows_from 0 pts) d /\
    bb = [xmin; ymin; xmax; ymax] /\
    py_min (map fst pts) = ok xmin /\ py_max (map fst pts) = ok xmax /\
    py_min (map snd pts) = ok ymin /\ py_max (map snd pts) = ok ymax.
Proof.
  intros Hres Hmhl Hlt Hget Hsh Hcall.
  destruct (selected_is_detected r hands handNo myHand Hmhl Hget) as [Hh Htruthy].
  destruct (pixels w h (landmark myHand)) as [e | pts] eqn:Hpts.
  - destruct (pixels_fails w h _ e Hpts) as (good & bad & rest & pts & Hs & Hg & Hb).
    rewrite (findPosition_loop_raise i handNo draw d r myHand h w c good rest bad pts e)
      in Hcall; try assumption; try (rewrite Hh; assumption).
    discriminate.
  - destruct pts as [| p pts'].
    + apply pixels_length in Hpts.
      destruct (landmark myHand) as [| lm0 lms0] eqn:Hl; [| discriminate].
      rewrite (findPosition_no_landmarks i handNo draw d r myHand) in Hcall;
        try assumption; try (rewrite Hh; assumption).
      discriminate.
    + destruct (findPosition_ok i handNo draw d r hands myHand h w c (p :: pts')
                  Hres Hmhl Hlt Hget Hsh Hpts ltac:(discriminate))
        as (xmin & ymin & xmax & ymax & Hx0 & Hx1 & Hy0 & Hy1 & Heq).
      rewrite Heq in Hcall. injection Hcall as <- <- <- _.
      exists (p :: pts'), xmin, ymin, xmax, ymax.
      repeat (split; [first [reflexivity | assumption | discriminate] |]).
      exact Hy1.
Qed.

(* ------------------------------------------------------------------ *)
(** * The claims *)

(** ** C1 *)

(** C1, as stated, fails: with a landmark at (0.875, 0.875) in a 10 x 10 image
    the products are 8.75, which [findPosition] turns into pixel 8 while
    rounding gives 9. *)
Lemma locate_rounds_counterexample : ~ locate_rounds.
Proof.
  intros H.
  destruct (H small_image 0 false corner_detector
              {| multi_hand_landmarks := Some [{| landmark := repeat corner_landmark 21 |}] |}
              {| landmark := repeat corner_landmark 21 |} 10 10 3
              (map (fun k => [Z.of_nat k; 8; 8]) (seq 0 21)) [8; 8; 8; 8]
              (set_lmList (map (fun k => [Z.of_nat k; 8; 8]) (seq 0 21)) corner_detector)
              small_image 0%nat corner_landmark)
    as (cx & cy & Hrow & fx & fy & Hfx & Hrx & _);
    try (vm_compute; reflexivity).
  vm_compute in Hrow. injection Hrow as <- <-.
  vm_compute in Hfx. injection Hfx as <-.
  vm_compute in Hrx. discriminate.
Qed.

(** C1 (amended): for the selected hand, [findPosition] converts every
    normalised landmark to the pixel [int(x * w)], [int(y * h)], the float
    products truncated toward zero, with [w] and [h] the width and height of
    the image passed to the call.  With drawing off, the call returns whenever
    the hand has a landmark and every landmark converts; and whenever the
    call returns, with drawing on or off, row [n] of the list it returns and
    caches is [[n, cx, cy]] with [cx], [cy] the truncated products of
    landmark [n]. *)
Theorem locate_truncates
        (i : image) (handNo : Z) (draw : bool) (d : HandDetector)
        (r : DetectionResult) (hands : list Hand) (myHand : Hand) (h w c : Z) :
  results d = Some r ->
  multi_hand_landmarks r = Some hands ->
  handNo < len hands ->
  py_getitem hands handNo = ok myHand ->
  shape i = [h; w; c] ->
  (landmark myHand <> [] ->
   forallb (converts w h) (landmark myHand) = true ->
   exists lms bb d', findPosition i handNo false d = (ok (lms, bb), d', i)) /\
  (forall lms bb d' i',
      findPosition i handNo draw d = (ok (lms, bb), d', i') ->
      lmList d' = lms /\
      length lms = length (landmark myHand) /\
      forall n lm,
        nth_error (landmark myHand) n = Some lm ->
        exists fx fy cx cy,
          float_mul_int (Landmark.x lm) w = ok fx /\ int_of_float fx = ok cx /\
          float_mul_int (Landmark.y lm) h = ok fy /\ int_of_float fy = ok cy /\
          nth_error lms n = Some [Z.of_nat n; cx; cy]).
Proof.
  intros Hres Hmhl Hlt Hget Hsh. split.
  - intros Hne Hconv.
    destruct (forallb_converts_pixels w h _ Hconv) as [pts Hpts].
    assert (Hpne : pts <> []).
    { intros ->. apply pixels_length in Hpts.
      destruct (landmark myHand); [congruence | discriminate]. }
    destruct (findPosition_ok i handNo false d r hands myHand h w c pts
                Hres Hmhl Hlt Hget Hsh Hpts Hpne)
      as (xmin & ymin & xmax & ymax & _ & _ & _ & _ & Hcall).
    eexists _, _, _. exact Hcall.
  - intros lms bb d' i' Hcall.
    destruct (findPosition_returns_rows i handNo draw d r hands myHand h w c
                lms bb d' i' Hres Hmhl Hlt Hget Hsh Hcall)
      as (pts & xmin & ymin & xmax & ymax & Hpts & _ & -> & -> & _).
    split; [reflexivity |].
    split; [rewrite rows_from_length; apply (pixels_length _ _ _ _ Hpts) |].
    intros n lm Hn.
    destruct (pixels_nth w h _ pts n lm Hpts Hn) as ([cx cy] & Hpt & Hpx).
    unfold to_pixel in Hpx.
    destruct (float_mul_int (Landmark.x lm) w) as [e | fx]; simpl in Hpx; [discriminate |].
    destruct (int_of_float fx) as [e | cx'] eqn:Hcx; simpl in Hpx; [discriminate |].
    destruct (float_mul_int (Landmark.y lm) h) as [e | fy]; simpl in Hpx; [discriminate |].
    destruct (int_of_float fy) as [e | cy'] eqn:Hcy; simpl in Hpx; [discriminate |].
    injection Hpx as -> ->.
    exists fx, fy, cx, cy. repeat (split; [assumption || reflexivity |]).
    rewrite (rows_from_nth pts 0 n cx cy Hpt). reflexivity.
Qed.

(** Landmark 0 at (0.5, 0.5) in the 100 x 200 image becomes pixel (50, 100). *)
Lemma locate_truncates_witness :
  exists lms bb d',
    findPosition demo_image 0 false demo_detector = (ok (lms, bb), d', demo_image) /\
    nth_error lms 0 = Some [0; 50; 100].
Proof.
  destruct (locate_truncates demo_image 0 false demo_detector
              {| multi_hand_landmarks := Some [demo_hand] |} [demo_hand] demo_hand
              200 100 3 eq_refl eq_refl eq_refl eq_refl eq_refl)
    as [Hreturns Hrows].
  destruct (Hreturns ltac:(discriminate) eq_refl) as (lms & bb & d' & Hcall).
  exists lms, bb, d'. split; [exact Hcall |].
  destruct (Hrows lms bb d' demo_image Hcall) as (_ & _ & Hrow).
  destruct (Hrow 0%nat (Landmark.mk float_half float_half) eq_refl)
    as (fx & fy & cx & cy & Hfx & Hcx & Hfy & Hcy & Hn).
  vm_compute in Hfx. injection Hfx as <-.
  vm_compute in Hcx. injection Hcx as <-.
  vm_compute in Hfy. injection Hfy as <-.
  vm_compute in Hcy. injection Hcy as <-.
  exact Hn.
Defined.

(** ** C2 *)

(** C2, as stated, fails: with one detected hand, hand index -2 is out of
    range, passes the guard [handNo < len(...)] and raises IndexError at the
    subscript. *)
Lemma locate_negative_index_raises : ~ locate_out_of_range_is_soft.
Proof.
  intros H.
  destruct (H demo_image (-2) false demo_detector
              {| multi_hand_landmarks := Some [demo_hand] |} eq_refl)
    as (d' & i' & Hcall).
  - left. vm_compute. reflexivity.
  - vm_compute in Hcall. discriminate.
Qed.

(** C2 (amended): when no hand was detected, whatever the index, or when the
    index is at least the number of detected hands, [findPosition] returns an
    empty landmark list and an empty bounding box, raises nothing, caches the
    empty list and leaves the image as it was. *)
Theorem locate_soft_failure
        (i : image) (handNo : Z) (draw : bool) (d : HandDetector) (r : DetectionResult) :
  results d = Some r ->
  truthy (multi_hand_landmarks r) = false \/ len (hands_of r) <= handNo ->
  findPosition i handNo draw d = (ok ([], []), set_lmList [] d, i).
Proof.
  intros Hres [Hnone | Hge].
  - apply (findPosition_nothing i handNo draw d r Hres). left. exact Hnone.
  - apply (findPosition_nothing i handNo draw d r Hres). right. exact Hge.
Qed.

(** One hand detected, hand index 1 requested. *)
Lemma locate_soft_failure_witness :
  findPosition demo_image 1 true demo_detector =
  (ok ([], []), set_lmList [] demo_detector, demo_image).
Proof.
  apply (locate_soft_failure demo_image 1 true demo_detector
           {| multi_hand_landmarks := Some [demo_hand] |}).
  - reflexivity.
  - right. vm_compute. discriminate.
Defined.

(** ** C3 *)

Lemma flag_ltb (a b : Z) : is_flag_of (flag (a <? b)) (a < b).
Proof.
  unfold is_flag_of. destruct (Z.ltb_spec a b); simpl; [left | right]; split;
    (reflexivity || lia).
Qed.

(** C3: on a cached landmark list of 21 rows, the thumb flag is 1 exactly when
    the x-pixel of landmark 4 exceeds that of landmark 3, and the flag of each
    finger with tip 8, 12, 16, 20 is 1 exactly when the y-pixel of the tip is
    strictly smaller than that of the landmark two below it; else 0.  The
    pixels are the ones the subscripts [lmList[k][1]] and [lmList[k][2]]
    read. *)
Theorem fingersUp_flags (d : HandDetector) :
  wf_lmList (lmList d) = true ->
  exists thumb others,
    fingersUp d = ok (thumb :: others) /\
    (exists x3 x4,
        coord (lmList d) 3 1 = ok x3 /\ coord (lmList d) 4 1 = ok x4 /\
        is_flag_of thumb (x4 > x3)) /\
    forall (k : nat) (tip : Z),
      nth_error [8; 12; 16; 20] k = Some tip ->
      exists f ytip yjoint,
        nth_error others k = Some f /\
        coord (lmList d) tip 2 = ok ytip /\
        coord (lmList d) (tip - 2) 2 = ok yjoint /\
        is_flag_of f (ytip < yjoint).
Proof.
  intros Hwf. rewrite (fingersUp_wf d Hwf).
  eexists _, _. split; [reflexivity |]. split.
  - exists (lm_x (lmList d) 3), (lm_x (lmList d) 4).
    rewrite !coord_wf_x by (assumption || lia).
    repeat (split; [reflexivity |]).
    destruct (flag_ltb (lm_x (lmList d) 3) (lm_x (lmList d) 4)) as [[H1 H2] | [H1 H2]];
      [left | right]; split; (assumption || lia).
  - intros k tip Hk.
    assert (Htip : 2 <= tip <= 20 /\
                   nth_error
                     [flag (lm_y (lmList d) 8 <? lm_y (lmList d) 6);
                      flag (lm_y (lmList d) 12 <? lm_y (lmList d) 10);
                      flag (lm_y (lmList d) 16 <? lm_y (lmList d) 14);
                      flag (lm_y (lmList d) 20 <? lm_y (lmList d) 18)] k
                   = Some (flag (lm_y (lmList d) tip <? lm_y (lmList d) (tip - 2)))).
    { do 4 (destruct k as [| k];
            [injection Hk as <-; split; [lia | reflexivity] |]).
      destruct k; discriminate. }
    destruct Htip as [Hr Hf].
    exists (flag (lm_y (lmList d) tip <? lm_y (lmList d) (tip - 2))),
           (lm_y (lmList d) tip), (lm_y (lmList d) (tip - 2)).
    rewrite !coord_wf_y by (assumption || lia).
    repeat (split; [assumption || reflexivity |]).
    apply flag_ltb.
Qed.

(** Index finger: tip 8 at y = 75 against joint 6 at y = 81 in the list cached
    by the demonstration call, so the flag is 1. *)
Lemma fingersUp_flags_witness :
  exists thumb others,
    fingersUp demo_cached = ok (thumb :: others) /\ nth_error others 0 = Some 1.
Proof.
  destruct (fingersUp_flags demo_cached eq_refl)
    as (thumb & others & Hcall & _ & Hfingers).
  exists thumb, others. split; [exact Hcall |].
  destruct (Hfingers 0%nat 8 eq_refl) as (f & ytip & yjoint & Hf & Ht & Hj & Hflag).
  vm_compute in Ht. injection Ht as <-.
  vm_compute in Hj. injection Hj as <-.
  destruct Hflag as [[_ ->] | [Hno _]]; [exact Hf |].
  exfalso. apply Hno. reflexivity.
Defined.

(** ** C4 *)

(** C4, as stated, fails: a list that is not empty need not hold 21 rows.
    When the third landmark of a hand does not convert, [findPosition] raises
    and leaves two rows cached; on them [fingersUp] raises IndexError at
    [lmList[4]] and returns no flags. *)
Lemma five_flags_counterexample : ~ five_flags_whenever_cached.
Proof.
  intros H.
  destruct (H interrupted_detector ltac:(discriminate))
    as (f0 & f1 & f2 & f3 & f4 & Hcall & _).
  vm_compute in Hcall. discriminate.
Qed.

(** C4 (amended): with no landmark list cached [fingersUp] returns the empty
    list and raises nothing; with a landmark list of 21 rows cached, as
    [findPosition] caches one for a hand when it returns, it returns exactly
    five flags, each 0 or 1, thumb first and then index, middle, ring and
    pinky. *)
Theorem fingersUp_five_flags (d : HandDetector) :
  (lmList d = [] -> fingersUp d = ok []) /\
  (wf_lmList (lmList d) = true ->
   exists thumb index middle ring pinky,
     fingersUp d = ok [thumb; index; middle; ring; pinky] /\
     Forall (fun f => f = 0 \/ f = 1) [thumb; index; middle; ring; pinky] /\
     thumb = flag (lm_x (lmList d) 3 <? lm_x (lmList d) 4) /\
     index = flag (lm_y (lmList d) 8 <? lm_y (lmList d) 6) /\
     middle = flag (lm_y (lmList d) 12 <? lm_y (lmList d) 10) /\
     ring = flag (lm_y (lmList d) 16 <? lm_y (lmList d) 14) /\
     pinky = flag (lm_y (lmList d) 20 <? lm_y (lmList d) 18)).
Proof.
  split.
  - intros Hnil. unfold fingersUp. rewrite Hnil. reflexivity.
  - intros Hwf. rewrite (fingersUp_wf d Hwf).
    eexists _, _, _, _, _. split; [reflexivity |].
    split; [| repeat split].
    repeat (apply Forall_cons;
            [match goal with
             | |- flag ?b = 0 \/ _ => destruct b; [right | left]; reflexivity
             end |]).
    apply Forall_nil.
Qed.

Lemma fingersUp_five_flags_witness :
  fingersUp fresh_detector = ok [] /\
  exists thumb index middle ring pinky,
    fingersUp demo_cached = ok [thumb; index; middle; ring; pinky] /\
    Forall (fun f => f = 0 \/ f = 1) [thumb; index; middle; ring; pinky].
Proof.
  split.
  - apply (proj1 (fingersUp_five_flags fresh_detector)). reflexivity.
  - destruct (proj2 (fingersUp_five_flags demo_cached) eq_refl)
      as (f0 & f1 & f2 & f3 & f4 & Hcall & Hflags & _).
    exists f0, f1, f2, f3, f4. split; assumption.
Defined.

(** ** C5 *)




(** ** C6 *)

(** C6, as stated, fails: index -1 lies outside [0, 20], and [findDistance]
    takes it for landmark 20 and returns a result. *)
Lemma distance_accepts_negative_index : ~ distance_rejects_outside_0_20.
Proof.
  intros H.
  destruct (H sqrt_norm (-1) 0 demo_image false demo_cached eq_refl) as [e He].
  - left. lia.
  - vm_compute in He. discriminate.
Qed.

(** C6 (amended): on a cached landmark list of 21 rows, [findDistance] raises
    IndexError, and so returns nothing, when either index is below -21 or
    above 20; that is not the result [(0, img, [])] it returns when no list is
    cached.  An index from -21 to -1 is accepted and counts from the end: it
    stands for the landmark 21 above it. *)
Theorem distance_index_errors
        (hypot : norm) (p1 p2 : Z) (i : image) (draw : bool) (d : HandDetector) :
  wf_lmList (lmList d) = true ->
  (p1 < -21 \/ 20 < p1 \/ p2 < -21 \/ 20 < p2 ->
   findDistance hypot p1 p2 i draw d = raise IndexError /\
   findDistance hypot p1 p2 i draw d <> ok (PyInt 0, i, [])) /\
  (-21 <= p1 < 0 ->
   findDistance hypot p1 p2 i draw d = findDistance hypot (p1 + 21) p2 i draw d) /\
  (-21 <= p2 < 0 ->
   findDistance hypot p1 p2 i draw d = findDistance hypot p1 (p2 + 21) i draw d).
Proof.
  intros Hwf.
  destruct (wf_lmList_nonempty _ Hwf) as (e0 & l' & El).
  assert (Hne : lmList d <> []) by (rewrite El; discriminate).
  pose proof (fun q1 q2 => findDistance_cached hypot q1 q2 i draw d Hne) as Hcall.
  split; [| split].
  - intros Hout.
    assert (Herr : findDistance hypot p1 p2 i draw d = raise IndexError).
    { rewrite Hcall.
      destruct (Z.lt_ge_cases p1 (-21)) as [Hlo | Hlo];
        [rewrite (getitem_wf_outside _ p1) by (assumption || lia); reflexivity |].
      destruct (Z.lt_ge_cases 20 p1) as [Hhi | Hhi];
        [rewrite (getitem_wf_outside _ p1) by (assumption || lia); reflexivity |].
      assert (Hp2 : p2 < -21 \/ 20 < p2) by lia.
      assert (H1 : exists a b c, py_getitem (lmList d) p1 = ok [a; b; c]).
      { destruct (Z.lt_ge_cases p1 0).
        - rewrite getitem_wf_wraps by (assumption || lia).
          rewrite getitem_wf by (assumption || lia). eauto.
        - rewrite getitem_wf by (assumption || lia). eauto. }
      destruct H1 as (a & b & c & ->). simpl rbind.
      rewrite (getitem_wf_outside _ p2) by assumption. reflexivity. }
    split; [exact Herr | rewrite Herr; discriminate].
  - intros Hp. rewrite !Hcall. rewrite getitem_wf_wraps by assumption. reflexivity.
  - intros Hp. rewrite !Hcall. rewrite (getitem_wf_wraps _ p2) by assumption.
    reflexivity.
Qed.

(** Index 21 raises IndexError; index -1 reads landmark 20. *)
Lemma distance_index_errors_witness :
  findDistance sqrt_norm 21 0 demo_image false demo_cached = raise IndexError /\
  findDistance sqrt_norm (-1) 0 demo_image false demo_cached =
  findDistance sqrt_norm 20 0 demo_image false demo_cached.
Proof.
  destruct (distance_index_errors sqrt_norm 21 0 demo_image false demo_cached eq_refl)
    as (Hout & _ & _).
  destruct (distance_index_errors sqrt_norm (-1) 0 demo_image false demo_cached
              eq_refl)
    as (_ & Hwrap & _).
  split.
  - apply Hout. right. left. lia.
  - apply Hwrap. lia.
Defined.

(** ** C7 *)

(** C7: when [findPosition] returns a non-empty landmark list, the bounding
    box it returns with it is [[xmin, ymin, xmax, ymax]] and every row
    [[id, x, y]] of the list has [xmin <= x <= xmax] and
    [ymin <= y <= ymax]. *)
Theorem bbox_contains_landmarks
        (i : image) (handNo : Z) (draw : bool) (d : HandDetector)
        (lms : list (list Z)) (bb : list Z) (d' : HandDetector) (i' : image) :
  findPosition i handNo draw d = (ok (lms, bb), d', i') ->
  lms <> [] ->
  exists xmin ymin xmax ymax,
    bb = [xmin; ymin; xmax; ymax] /\
    forall e, In e lms ->
      exists id x y, e = [id; x; y] /\ xmin <= x <= xmax /\ ymin <= y <= ymax.
Proof.
  intros Hcall Hne.
  destruct (findPosition_returns _ _ _ _ _ _ _ _ Hcall) as [_ [[Hnil _] | Hbox]];
    [contradiction |].
  destruct Hbox as (rows & xmin & ymin & xmax & ymax & -> & -> & Hx0 & Hx1 & Hy0 & Hy1).
  exists xmin, ymin, xmax, ymax. split; [reflexivity |].
  intros e He. apply in_map_iff in He as ([id [x y]] & <- & Hin).
  exists id, x, y. split; [reflexivity |].
  assert (Hx : In x (map row_x rows)) by (apply in_map_iff; exists (id, (x, y)); auto).
  assert (Hy : In y (map row_y rows)) by (apply in_map_iff; exists (id, (x, y)); auto).
  pose proof (py_min_le _ _ Hx0 x Hx). pose proof (py_max_ge _ _ Hx1 x Hx).
  pose proof (py_min_le _ _ Hy0 y Hy). pose proof (py_max_ge _ _ Hy1 y Hy).
  lia.
Qed.

(** The demonstration call: 21 landmarks inside the box [[50, 37, 81, 100]]. *)
Lemma bbox_contains_landmarks_witness :
  demo_bbox = [50; 37; 81; 100] /\
  forall e, In e demo_lmList ->
    exists id x y, e = [id; x; y] /\ 50 <= x <= 81 /\ 37 <= y <= 100.
Proof.
  destruct (bbox_contains_landmarks demo_image 0 true demo_detector
              demo_lmList demo_bbox demo_cached (snd demo_call) eq_refl
              ltac:(discriminate))
    as (xmin & ymin & xmax & ymax & Hbb & Hin).
  injection Hbb as <- <- <- <-.
  split; [reflexivity | exact Hin].
Defined.

(** ** C8 *)


(** ** C9 *)

(** C9: a call of [findPosition] does not depend on the landmark list cached
    before it.  Two detectors that differ only in that list get the same
    return value (or exception), the same cached list after the call and the
    same image, so [fingersUp] and [findDistance] after the call agree too;
    and the list a returning call hands back is the one it has cached. *)
Theorem findPosition_discards_cache
        (i : image) (handNo : Z) (draw : bool) (d : HandDetector)
        (stale stale' : list (list Z)) :
  findPosition i handNo draw (set_lmList stale d) =
  findPosition i handNo draw (set_lmList stale' d) /\
  (let after := snd (fst (findPosition i handNo draw (set_lmList stale d))) in
   let after' := snd (fst (findPosition i handNo draw (set_lmList stale' d))) in
   lmList after = lmList after' /\
   fingersUp after = fingersUp after' /\
   forall hypot p1 p2 i0 draw0,
     findDistance hypot p1 p2 i0 draw0 after =
     findDistance hypot p1 p2 i0 draw0 after') /\
  (forall lms bb d' i',
      findPosition i handNo draw (set_lmList stale d) = (ok (lms, bb), d', i') ->
      lmList d' = lms).
Proof.
  assert (Hsame : findPosition i handNo draw (set_lmList stale d) =
                  findPosition i handNo draw (set_lmList stale' d)).
  { unfold findPosition, findPosition_body, enter.
    unfold bind, modify, upd_xList, upd_yList, upd_self, set_lmList.
    cbn [self img xList yList mode maxHands detectionCon trackCon results lmList].
    reflexivity. }
  split; [exact Hsame |]. split.
  - cbv zeta. rewrite Hsame. repeat split.
  - intros lms bb d' i' Hcall.
    apply (findPosition_returns _ _ _ _ _ _ _ _ Hcall).
Qed.

(** A stale list of one bogus row against an empty cache. *)
Lemma findPosition_discards_cache_witness :
  findPosition demo_image 0 true (set_lmList [[99; 1; 1]] demo_detector) =
  findPosition demo_image 0 true (set_lmList [] demo_detector) /\
  forall lms bb d' i',
    findPosition demo_image 0 true (set_lmList [[99; 1; 1]] demo_detector)
    = (ok (lms, bb), d', i') ->
    lmList d' = lms.
Proof.
  destruct (findPosition_discards_cache demo_image 0 true demo_detector
              [[99; 1; 1]] [])
    as (Hsame & _ & Hret).
  split; [exact Hsame | exact Hret].
Defined.

(** ** C10 *)

(** C10: on a freshly constructed detector [findPosition] raises
    AttributeError, whatever the image, the hand index and the drawing flag:
    [results] is still [None] and its attribute is read unguarded.  Once
    [findHands] has run and recorded a result without hands, the same call
    returns the empty landmark list and the empty bounding box. *)
Theorem findPosition_before_findHands
        (process : image -> Res DetectionResult)
        (mode_ : bool) (maxHands_ : Z) (detectionCon_ trackCon_ : float)
        (i : image) (handNo : Z) (draw : bool) :
  let fresh := init mode_ maxHands_ detectionCon_ trackCon_ in
  findPosition i handNo draw fresh = (raise AttributeError, fresh, i) /\
  forall (i0 : image) (draw0 : bool) (r : DetectionResult),
    process i0 = ok r ->
    truthy (multi_hand_landmarks r) = false ->
    exists detected,
      findHands process i0 draw0 fresh = (ok i0, detected, i0) /\
      results detected = Some r /\
      findPosition i handNo draw detected = (ok ([], []), detected, i).
Proof.
  intros fresh. split; [reflexivity |].
  intros i0 draw0 r Hproc Hnone.
  exists (set_results r fresh).
  assert (Hfind : findHands process i0 draw0 fresh = (ok i0, set_results r fresh, i0)).
  { unfold findHands, findHands_body, enter, get_multi_hand_landmarks.
    unfold bind, gets, lift, modify. simpl. rewrite Hproc. simpl.
    rewrite Hnone. reflexivity. }
  split; [exact Hfind |]. split; [reflexivity |].
  apply (findPosition_nothing i handNo draw (set_results r fresh) r eq_refl).
  left. exact Hnone.
Qed.

(** An engine that finds no hand in any image. *)
Lemma findPosition_before_findHands_witness :
  findPosition demo_image 0 true fresh_detector =
  (raise AttributeError, fresh_detector, demo_image) /\
  exists detected,
    findHands (fun _ => ok {| multi_hand_landmarks := None |}) demo_image true
              fresh_detector = (ok demo_image, detected, demo_image) /\
    findPosition demo_image 0 true detected = (ok ([], []), detected, demo_image).
Proof.
  destruct (findPosition_before_findHands
              (fun _ => ok {| multi_hand_landmarks := None |})
              false 2 float_half float_half demo_image 0 true)
    as [Hraise Hafter].
  split; [exact Hraise |].
  destruct (Hafter demo_image true {| multi_hand_landmarks := None |} eq_refl eq_refl)
    as (detected & Hfind & _ & Hpos).
  exists detected. split; assumption.
Defined.

(* ------------------------------------------------------------------ *)
(** * Further properties *)

(** ** findHands *)

(** X1: a call of [findHands] whose engine returns a result records that result
    in place of whatever was recorded and keeps the cached landmark list.
    With drawing off, or when the result holds no hand, it issues no drawing
    call and returns the image as passed.  With drawing on, a call that
    returns has issued one skeleton drawing call for every detected hand, in
    order, and returns the image it was passed.  When the engine raises, the
    exception propagates and the detector and the image are as before. *)
Theorem findHands_records
        (process : image -> Res DetectionResult)
        (i : image) (draw : bool) (d : HandDetector) :
  (forall r, process i = ok r ->
     snd (fst (findHands process i draw d)) = set_results r d /\
     lmList (set_results r d) = lmList d /\
     (draw = false \/ truthy (multi_hand_landmarks r) = false ->
      findHands process i draw d = (ok i, set_results r d, i)) /\
     (forall i' d' i'',
         findHands process i draw d = (ok i', d', i'') ->
         i' = i'' /\
         i'' = draw_all draw (map draw_landmarks (hands_of r)) i)) /\
  (forall e, process i = raise e -> findHands process i draw d = (raise e, d, i)).
Proof.
  split.
  - intros r Hproc. rewrite (findHands_ok process i draw d r Hproc).
    split; [reflexivity |]. split; [reflexivity |]. split.
    + intros [-> | Hnone]; [reflexivity |].
      unfold hands_of.
      destruct (multi_hand_landmarks r) as [[| h0 hs] |]; try discriminate;
        unfold draw_all; simpl; destruct i, draw; simpl; rewrite ?app_nil_r;
        reflexivity.
    + intros i' d' i'' [= <- _ <-]. split; reflexivity.
  - intros e Hproc. apply findHands_raise, Hproc.
Qed.

(** An engine that finds the demonstration hand twice, with drawing off; and
    an engine that raises. *)
Lemma findHands_records_witness :
  findHands (fun _ => ok {| multi_hand_landmarks := Some [demo_hand; demo_hand] |})
            demo_image false demo_cached
  = (ok demo_image,
     set_results {| multi_hand_landmarks := Some [demo_hand; demo_hand] |} demo_cached,
     demo_image) /\
  findHands (fun _ => raise EngineError) demo_image true demo_cached =
  (raise EngineError, demo_cached, demo_image).
Proof.
  split.
  - destruct (proj1 (findHands_records
                       (fun _ => ok {| multi_hand_landmarks :=
                                         Some [demo_hand; demo_hand] |})
                       demo_image false demo_cached)
                _ eq_refl) as (_ & _ & Hoff & _).
    apply Hoff. left. reflexivity.
  - apply (proj2 (findHands_records (fun _ => raise EngineError)
                    demo_image true demo_cached)).
    reflexivity.
Defined.

(** X2: [findHands] never touches the cached landmark list, whatever the
    engine does: [fingersUp] and [findDistance] answer after it as they did
    before it, from the list of the last [findPosition]. *)
Theorem findHands_keeps_cache
        (process : image -> Res DetectionResult)
        (i : image) (draw : bool) (d : HandDetector) :
  let after := snd (fst (findHands process i draw d)) in
  lmList after = lmList d /\
  fingersUp after = fingersUp d /\
  forall hypot p1 p2 i0 draw0,
    findDistance hypot p1 p2 i0 draw0 after = findDistance hypot p1 p2 i0 draw0 d.
Proof.
  cbv zeta.
  assert (Hl : lmList (snd (fst (findHands process i draw d))) = lmList d).
  { destruct (process i) as [e | r] eqn:Hproc.
    - rewrite (findHands_raise process i draw d e Hproc).
      reflexivity.
    - rewrite (findHands_ok process i draw d r Hproc). reflexivity. }
  split; [exact Hl |].
  unfold fingersUp, findDistance. rewrite Hl. split; [reflexivity |].
  intros; reflexivity.
Qed.

(** ** findPosition: selection, exceptions and what is left behind *)

(** X3: whatever a call of [findPosition] does, return or raise, it leaves the
    recorded detection and the configuration of the detector as they were, and
    with drawing off it issues no drawing call: the image is exactly as
    passed. *)
Theorem findPosition_untouched
        (i : image) (handNo : Z) (draw : bool) (d : HandDetector) :
  let d' := snd (fst (findPosition i handNo draw d)) in
  let i' := snd (findPosition i handNo draw d) in
  results d' = results d /\
  mode d' = mode d /\ maxHands d' = maxHands d /\
  detectionCon d' = detectionCon d /\ trackCon d' = trackCon d /\
  (draw = false -> i' = i).
Proof.
  cbv zeta. pose proof (findPosition_body_untouched i handNo draw d) as H.
  unfold findPosition.
  destruct (findPosition_body handNo draw (enter d i)) as [res F].
  destruct H as (H1 & H2 & H3 & H4 & H5 & _ & _ & H8).
  repeat (split; [assumption |]). exact H8.
Qed.



(** X5: with a hand selected, [findPosition] raises ValueError when the shape
    of the image is not a triple (a grey-level image, for one) and the hand has
    a landmark, and when the hand has no landmark at all ([min] of an empty
    list); the empty list stays cached and nothing is drawn. *)
Theorem findPosition_value_error
        (i : image) (handNo : Z) (draw : bool) (d : HandDetector)
        (r : DetectionResult) (myHand : Hand) :
  results d = Some r ->
  truthy (multi_hand_landmarks r) = true ->
  handNo < len (hands_of r) ->
  py_getitem (hands_of r) handNo = ok myHand ->
  landmark myHand = [] \/ length (shape i) <> 3%nat ->
  findPosition i handNo draw d = (raise ValueError, set_lmList [] d, i).
Proof.
  intros Hres Htruthy Hlt Hget Hcase.
  rewrite (findPosition_selects i handNo draw d r Hres Htruthy Hlt), Hget.
  unfold ok. cbv beta iota.
  unfold run, locate_selected, enter, enumerate.
  destruct (landmark myHand) as [| lm rest] eqn:Hl.
  - reflexivity.
  - destruct Hcase as [Hnil | Hshape]; [discriminate |].
    unfold bind at 1. cbn [enumerate_from]. rewrite for_each_cons.
    rewrite position_step_bad_shape by exact Hshape.
    reflexivity.
Qed.

(** A grey-level image, whose shape has two entries. *)
Lemma findPosition_value_error_witness :
  findPosition grey_image 0 true demo_detector =
  (raise ValueError, set_lmList [] demo_detector, grey_image).
Proof.
  apply (findPosition_value_error grey_image 0 true demo_detector
           {| multi_hand_landmarks := Some [demo_hand] |} demo_hand);
    try reflexivity.
  right. simpl. discriminate.
Defined.

(** X6: a negative hand index passes the guard [handNo < len(...)].  From
    [-n] to [-1], with [n] hands detected, it selects from the end: the call
    does what the call with index [handNo + n] does.  Below [-n] the subscript
    raises IndexError, with the empty list cached and the image untouched. *)
Theorem findPosition_negative_index
        (i : image) (handNo : Z) (draw : bool) (d : HandDetector) (r : DetectionResult) :
  results d = Some r ->
  truthy (multi_hand_landmarks r) = true ->
  (- len (hands_of r) <= handNo < 0 ->
   findPosition i handNo draw d =
   findPosition i (handNo + len (hands_of r)) draw d) /\
  (handNo < - len (hands_of r) ->
   findPosition i handNo draw d = (raise IndexError, set_lmList [] d, i)).
Proof.
  intros Hres Htruthy.
  assert (Hpos : 0 <= len (hands_of r)) by (unfold len; lia).
  split; intros Hrange.
  - rewrite (findPosition_selects i handNo draw d r Hres Htruthy) by lia.
    rewrite (findPosition_selects i (handNo + len (hands_of r)) draw d r Hres Htruthy)
      by lia.
    rewrite py_getitem_wraps by exact Hrange. reflexivity.
  - rewrite (findPosition_selects i handNo draw d r Hres Htruthy) by lia.
    rewrite py_getitem_below by exact Hrange. reflexivity.
Qed.

(** Two hands detected: index -1 is the second hand, index -3 raises. *)
Lemma findPosition_negative_index_witness :
  findPosition demo_image (-1) true two_hands_detector =
  findPosition demo_image 1 true two_hands_detector /\
  findPosition demo_image (-3) true two_hands_detector =
  (raise IndexError, set_lmList [] two_hands_detector, demo_image).
Proof.
  destruct (findPosition_negative_index demo_image (-1) true two_hands_detector
              _ eq_refl eq_refl) as [Hwrap _].
  destruct (findPosition_negative_index demo_image (-3) true two_hands_detector
              _ eq_refl eq_refl) as [_ Hbelow].
  split.
  - apply Hwrap. vm_compute. split; [intros H; discriminate H | reflexivity].
  - apply Hbelow. reflexivity.
Defined.

(** ** The bounding box is the smallest one *)

(** X7: the bounding box [findPosition] returns with a non-empty landmark list
    is tight: each of its four sides is the coordinate of some row of the
    list, and [xmin <= xmax], [ymin <= ymax]. *)
Theorem bbox_is_tight
        (i : image) (handNo : Z) (draw : bool) (d : HandDetector)
        (lms : list (list Z)) (bb : list Z) (d' : HandDetector) (i' : image) :
  findPosition i handNo draw d = (ok (lms, bb), d', i') ->
  lms <> [] ->
  exists xmin ymin xmax ymax,
    bb = [xmin; ymin; xmax; ymax] /\
    xmin <= xmax /\ ymin <= ymax /\
    (exists id y, In [id; xmin; y] lms) /\
    (exists id y, In [id; xmax; y] lms) /\
    (exists id x, In [id; x; ymin] lms) /\
    (exists id x, In [id; x; ymax] lms).
Proof.
  intros Hcall Hne.
  destruct (findPosition_returns _ _ _ _ _ _ _ _ Hcall) as [_ [[Hnil _] | Hbox]];
    [contradiction |].
  destruct Hbox as (rows & xmin & ymin & xmax & ymax & -> & -> & Hx0 & Hx1 & Hy0 & Hy1).
  exists xmin, ymin, xmax, ymax. split; [reflexivity |].
  pose proof (py_min_in _ _ Hx0) as Ix0. pose proof (py_max_in _ _ Hx1) as Ix1.
  pose proof (py_min_in _ _ Hy0) as Iy0. pose proof (py_max_in _ _ Hy1) as Iy1.
  split; [apply (py_min_le _ _ Hx0), Ix1 |].
  split; [apply (py_min_le _ _ Hy0), Iy1 |].
  split; [apply row_x_attained, Ix0 |].
  split; [apply row_x_attained, Ix1 |].
  split; [apply row_y_attained, Iy0 | apply row_y_attained, Iy1].
Qed.

(** The demonstration call: the sides 50, 37, 81, 100 belong to landmarks 0
    and 20. *)
Lemma bbox_is_tight_witness :
  exists xmin ymin xmax ymax,
    demo_bbox = [xmin; ymin; xmax; ymax] /\
    xmin <= xmax /\ ymin <= ymax /\
    (exists id y, In [id; xmin; y] demo_lmList) /\
    (exists id y, In [id; xmax; y] demo_lmList) /\
    (exists id x, In [id; x; ymin] demo_lmList) /\
    (exists id x, In [id; x; ymax] demo_lmList).
Proof.
  apply (bbox_is_tight demo_image 0 true demo_detector
           demo_lmList demo_bbox demo_cached (snd demo_call) eq_refl).
  discriminate.
Defined.

(** ** What findPosition draws *)

(** X8: with [draw] on, a call of [findPosition] that returns a non-empty
    landmark list has added to the image, after what was on it, a filled green
    circle of radius 7 at the pixel of every row, in order, and then the
    rectangle of the bounding box widened by 20 pixels on every side; a call
    that returns the empty list has drawn nothing. *)
Theorem findPosition_draws
        (i : image) (handNo : Z) (d : HandDetector)
        (lms : list (list Z)) (bb : list Z) (d' : HandDetector) (i' : image) :
  findPosition i handNo true d = (ok (lms, bb), d', i') ->
  (lms = [] -> i' = i) /\
  (lms <> [] ->
   shape i' = shape i /\
   drawn i' = drawn i ++ map marker_of_row lms ++ [frame_of_box bb]).
Proof.
  unfold findPosition, findPosition_body, enter, get_multi_hand_landmarks.
  unfold bind, modify, gets, lift, ret, when, ok. simpl.
  destruct (results d) as [r |]; [| discriminate].
  destruct (multi_hand_landmarks r) as [[| h0 hs] |]; simpl;
    try (intros [= <- <- <- <-]; split; [reflexivity | congruence]).
  destruct (handNo <? len (h0 :: hs));
    [| intros [= <- <- <- <-]; split; [reflexivity | congruence]].
  destruct (py_getitem (h0 :: hs) handNo) as [e | myHand]; [discriminate |].
  assert (H0 : painted i {| self := set_lmList [] d; img := i;
                            xList := []; yList := [] |}).
  { split; [reflexivity |]. simpl. rewrite app_nil_r. reflexivity. }
  pose proof (for_each_invariant (painted i) (position_step true)
                (position_step_painted i) (enumerate (landmark myHand)) _ H0) as Hp.
  pose proof (for_each_invariant consistent (position_step true)
                (position_step_consistent true) (enumerate (landmark myHand))
                {| self := set_lmList [] d; img := i; xList := []; yList := [] |})
    as Hc.
  destruct (for_each (position_step true) (enumerate (landmark myHand)) _)
    as [[e | []] F1]; [discriminate |].
  destruct Hc as (rows & C1 & C2 & C3); [exists []; repeat split |].
  destruct Hp as [P1 P2]. simpl in C1, C2, C3, P1, P2.
  destruct (py_min (xList F1)) as [e | xmin] eqn:Exmin; [discriminate |].
  destruct (py_max (xList F1)) as [e | xmax]; [discriminate |].
  destruct (py_min (yList F1)) as [e | ymin]; [discriminate |].
  destruct (py_max (yList F1)) as [e | ymax]; [discriminate |].
  unfold upd_img, draw_on. simpl. intros [= <- <- <- <-]. split.
  - intros Hnil. rewrite C2 in Exmin. rewrite C1 in Hnil.
    destruct rows; [discriminate Exmin | discriminate Hnil].
  - intros _. split; [exact P1 |].
    rewrite P2, <- app_assoc. reflexivity.
Qed.

(** The demonstration call: 21 markers and the rectangle (30, 17) - (101, 120). *)
Lemma findPosition_draws_witness :
  drawn (snd demo_call) =
  map marker_of_row demo_lmList ++
  [rectangle (30, 17) (101, 120) (0, 255, 0) 2].
Proof.
  destruct (findPosition_draws demo_image 0 demo_detector
              demo_lmList demo_bbox demo_cached (snd demo_call) eq_refl)
    as [_ Hdraw].
  destruct Hdraw as [_ Hdrawn]; [discriminate |].
  exact Hdrawn.
Defined.

(** ** The calls in sequence *)

(** X9: detection, location and the two queries in sequence, with drawing
    off.  When the engine returns hands, the index selects one of 21 landmarks
    and every landmark converts, [findHands] returns the image it was passed
    and [findPosition] on that image caches a list of 21 rows, row [p]
    carrying id [p], leaving the image as it was; after that [fingersUp]
    returns five flags, and [findDistance] with drawing off, for every pair
    of ids in [0, 20], hands the differences of the two rows to [math.hypot]
    and, when that returns, returns its float with the image as passed and
    the six coordinates. *)
Theorem detect_locate_query
        (process : image -> Res DetectionResult)
        (i : image) (handNo : Z) (d : HandDetector)
        (r : DetectionResult) (hands : list Hand) (myHand : Hand) (h w c : Z) :
  process i = ok r ->
  multi_hand_landmarks r = Some hands ->
  handNo < len hands ->
  py_getitem hands handNo = ok myHand ->
  shape i = [h; w; c] ->
  length (landmark myHand) = 21%nat ->
  forallb (converts w h) (landmark myHand) = true ->
  exists d1 lms bb d2,
    findHands process i false d = (ok i, d1, i) /\
    findPosition i handNo false d1 = (ok (lms, bb), d2, i) /\
    lmList d2 = lms /\
    wf_lmList lms = true /\
    (forall p, 0 <= p <= 20 -> lm_id lms p = p) /\
    (exists thumb index middle ring pinky,
        fingersUp d2 = ok [thumb; index; middle; ring; pinky]) /\
    (forall hypot p1 p2 i0,
        0 <= p1 <= 20 -> 0 <= p2 <= 20 ->
        findDistance hypot p1 p2 i0 false d2 =
        (v <~ math_hypot hypot (lm_x lms p2 - lm_x lms p1)
                               (lm_y lms p2 - lm_y lms p1) ;;
         ok (PyFloat v, i0,
             [lm_x lms p1; lm_y lms p1; lm_x lms p2; lm_y lms p2;
              (lm_x lms p1 + lm_x lms p2) / 2;
              (lm_y lms p1 + lm_y lms p2) / 2]))%py).
Proof.
  intros Hproc Hmhl Hlt Hget Hsh Hlen Hconv.
  destruct (forallb_converts_pixels w h _ Hconv) as [pts Hpts].
  pose proof (pixels_length _ _ _ _ Hpts) as Hplen. rewrite Hlen in Hplen.
  assert (Hpne : pts <> []) by (intros ->; discriminate).
  destruct (findPosition_ok i handNo false (set_results r d) r hands myHand h w c pts
              eq_refl Hmhl Hlt Hget Hsh Hpts Hpne)
    as (xmin & ymin & xmax & ymax & _ & _ & _ & _ & Hcall).
  pose proof (rows_from_wf pts 0 Hplen) as Hwf.
  eexists (set_results r d), _, _, _.
  split; [rewrite (findHands_ok process i false d r Hproc); reflexivity |].
  split; [exact Hcall |].
  split; [reflexivity |].
  split; [exact Hwf |].
  split; [intros p Hp; apply rows_from_id; unfold len; lia |].
  split.
  - eexists _, _, _, _, _. apply fingersUp_wf. exact Hwf.
  - intros hypot p1 p2 i0 Hp1 Hp2.
    pose proof (getitem_wf _ p1 Hwf Hp1) as G1.
    pose proof (getitem_wf _ p2 Hwf Hp2) as G2.
    apply (findDistance_rows hypot p1 p2 i0 false
             (set_lmList (rows_from 0 pts) (set_results r d)) _ _ _ _ _ _ G1 G2).
Qed.

(** A fresh detector, an engine that finds the demonstration hand. *)
Lemma detect_locate_query_witness :
  exists d1 lms bb d2,
    findHands (fun _ => ok {| multi_hand_landmarks := Some [demo_hand] |})
              demo_image false fresh_detector = (ok demo_image, d1, demo_image) /\
    findPosition demo_image 0 false d1 = (ok (lms, bb), d2, demo_image) /\
    fingersUp d2 = ok [1; 1; 1; 1; 1].
Proof.
  destruct (detect_locate_query
              (fun _ => ok {| multi_hand_landmarks := Some [demo_hand] |})
              demo_image 0 fresh_detector
              {| multi_hand_landmarks := Some [demo_hand] |} [demo_hand] demo_hand
              200 100 3 eq_refl eq_refl eq_refl eq_refl eq_refl eq_refl eq_refl)
    as (d1 & lms & bb & d2 & Hfind & Hpos & _).
  exists d1, lms, bb, d2. split; [exact Hfind |]. split; [exact Hpos |].
  vm_compute in Hfind. injection Hfind as <-.
  vm_compute in Hpos. injection Hpos as <- <- <-.
  reflexivity.
Defined.

(** X10: a call of [findPosition] that finds nothing, because no hand was
    detected or the index is at least the number of hands, clears what the
    queries read: after it [fingersUp] returns the empty list and
    [findDistance] returns [(0, img, [])] for every pair of indices, whatever
    list was cached before the call. *)
Theorem nothing_located_clears_queries
        (i : image) (handNo : Z) (draw : bool) (d : HandDetector) (r : DetectionResult) :
  results d = Some r ->
  truthy (multi_hand_landmarks r) = false \/ len (hands_of r) <= handNo ->
  let d' := snd (fst (findPosition i handNo draw d)) in
  fingersUp d' = ok [] /\
  forall hypot p1 p2 i0 draw0,
    findDistance hypot p1 p2 i0 draw0 d' = ok (PyInt 0, i0, []).
Proof.
  intros Hres Hcase. cbv zeta.
  rewrite (findPosition_nothing i handNo draw d r Hres Hcase).
  split; [reflexivity | intros; reflexivity].
Qed.

(** The detector with the demonstration list cached, asked for a second hand. *)
Lemma nothing_located_clears_queries_witness :
  fingersUp demo_cached = ok [1; 1; 1; 1; 1] /\
  fingersUp (snd (fst (findPosition demo_image 1 true demo_cached))) = ok [] /\
  forall hypot p1 p2 i0 draw0,
    findDistance hypot p1 p2 i0 draw0
                 (snd (fst (findPosition demo_image 1 true demo_cached)))
    = ok (PyInt 0, i0, []).
Proof.
  split; [reflexivity |].
  apply (nothing_located_clears_queries demo_image 1 true demo_cached
           {| multi_hand_landmarks := Some [demo_hand] |} eq_refl).
  right. vm_compute. intros H; discriminate H.
Defined.

(** ** fingersUp on a list cut short *)

(** X11: on a cached list that is not empty but has fewer than 21 rows, as
    [findPosition] leaves one behind when it raises inside its loop,
    [fingersUp] does not return the empty list: it raises IndexError. *)
Theorem fingersUp_short_list (d : HandDetector) :
  lmList d <> [] ->
  (length (lmList d) < 21)%nat ->
  Forall (fun e => length e = 3%nat) (lmList d) ->
  fingersUp d = raise IndexError.
Proof.
  intros Hne Hlen Hrows. unfold fingersUp.
  destruct (lmList d) as [| e0 l0] eqn:El; [congruence |].
  rewrite <- El in *. clear El e0 l0.
  assert (Hl : 0 < len (lmList d) < 21).
  { unfold len. destruct (lmList d); [congruence | simpl in *; lia]. }
  set (l := lmList d) in *.
  change (py_getitem tipIds 0) with (ok (A := Z) 4). simpl rbind.
  destruct (Z.le_gt_cases (len l) 4) as [H4 | H4].
  { rewrite coord_above by exact H4. reflexivity. }
  rewrite (proj1 (coord_rows l 4 Hrows ltac:(lia))). simpl rbind.
  match goal with |- context [coord l ?q 1] =>
    rewrite (proj1 (coord_rows l q Hrows ltac:(lia))) end.
  simpl rbind. cbn [rfold].
  match goal with |- context [finger_step l ?fs 1] =>
    destruct (finger_step_rows l fs 1 8 Hrows eq_refl ltac:(lia)) as [Hno Hyes] end.
  destruct (Z.le_gt_cases (len l) 8) as [H8 | H8]; [rewrite Hno by exact H8; reflexivity |].
  rewrite Hyes by lia. simpl rbind. clear Hno Hyes.
  match goal with |- context [finger_step l ?fs 2] =>
    destruct (finger_step_rows l fs 2 12 Hrows eq_refl ltac:(lia)) as [Hno Hyes] end.
  destruct (Z.le_gt_cases (len l) 12) as [H12 | H12];
    [rewrite Hno by exact H12; reflexivity |].
  rewrite Hyes by lia. simpl rbind. clear Hno Hyes.
  match goal with |- context [finger_step l ?fs 3] =>
    destruct (finger_step_rows l fs 3 16 Hrows eq_refl ltac:(lia)) as [Hno Hyes] end.
  destruct (Z.le_gt_cases (len l) 16) as [H16 | H16];
    [rewrite Hno by exact H16; reflexivity |].
  rewrite Hyes by lia. simpl rbind. clear Hno Hyes.
  match goal with |- context [finger_step l ?fs 4] =>
    destruct (finger_step_rows l fs 4 20 Hrows eq_refl ltac:(lia)) as [Hno Hyes] end.
  rewrite Hno by lia. reflexivity.
Qed.

(** Five rows cached. *)
Lemma fingersUp_short_list_witness : fingersUp short_detector = raise IndexError.
Proof.
  apply (fingersUp_short_list short_detector).
  - discriminate.
  - simpl. lia.
  - repeat constructor.
Defined.

(** ** The queries under a change of coordinates *)

(** X12: the finger flags depend only on the order of the pixel coordinates.
    Sending all abscissas through one strictly increasing map and all
    ordinates through another (moving the hand in the image, enlarging it)
    leaves the five flags of [fingersUp] as they are. *)
Theorem fingersUp_order_invariant
        (fx fy : Z -> Z) (l : list (list Z)) (d : HandDetector) :
  wf_lmList l = true ->
  (forall a b, a < b <-> fx a < fx b) ->
  (forall a b, a < b <-> fy a < fy b) ->
  fingersUp (set_lmList (map_rows fx fy l) d) = fingersUp (set_lmList l d).
Proof.
  intros Hwf Hfx Hfy.
  rewrite (fingersUp_wf (set_lmList (map_rows fx fy l) d)) by (apply map_rows_wf, Hwf).
  rewrite (fingersUp_wf (set_lmList l d)) by exact Hwf.
  cbn [lmList set_lmList].
  assert (Hx : forall p q, 0 <= p <= 20 -> 0 <= q <= 20 ->
                 (lm_x (map_rows fx fy l) p <? lm_x (map_rows fx fy l) q)
                 = (lm_x l p <? lm_x l q)).
  { intros p q Hp Hq.
    rewrite (proj1 (map_rows_coords fx fy l p Hwf Hp)),
            (proj1 (map_rows_coords fx fy l q Hwf Hq)).
    destruct (Z.ltb_spec (lm_x l p) (lm_x l q)) as [H | H];
      destruct (Z.ltb_spec (fx (lm_x l p)) (fx (lm_x l q))) as [H' | H'];
      try reflexivity.
    - apply Hfx in H. lia.
    - apply Hfx in H'. lia. }
  assert (Hy : forall p q, 0 <= p <= 20 -> 0 <= q <= 20 ->
                 (lm_y (map_rows fx fy l) p <? lm_y (map_rows fx fy l) q)
                 = (lm_y l p <? lm_y l q)).
  { intros p q Hp Hq.
    rewrite (proj2 (map_rows_coords fx fy l p Hwf Hp)),
            (proj2 (map_rows_coords fx fy l q Hwf Hq)).
    destruct (Z.ltb_spec (lm_y l p) (lm_y l q)) as [H | H];
      destruct (Z.ltb_spec (fy (lm_y l p)) (fy (lm_y l q))) as [H' | H'];
      try reflexivity.
    - apply Hfy in H. lia.
    - apply Hfy in H'. lia. }
  rewrite Hx, !Hy by lia. reflexivity.
Qed.

(** The demonstration list moved by (10, -5) and doubled. *)
Lemma fingersUp_order_invariant_witness :
  fingersUp (set_lmList (map_rows (fun x => 2 * x + 10) (fun y => 2 * y - 5) demo_lmList)
                        fresh_detector)
  = fingersUp (set_lmList demo_lmList fresh_detector).
Proof.
  apply (fingersUp_order_invariant (fun x => 2 * x + 10) (fun y => 2 * y - 5)
           demo_lmList fresh_detector).
  - reflexivity.
  - intros a b. lia.
  - intros a b. lia.
Defined.

(** X13: the thumb test is not symmetric under a mirror.  Sending the
    abscissas through a strictly decreasing map (the image flipped left to
    right) leaves the four finger flags as they are and turns the thumb flag
    into the flag of the opposite comparison: it is inverted whenever the
    thumb tip and the joint below it are not in the same column. *)
Theorem fingersUp_mirrored
        (fx : Z -> Z) (l : list (list Z)) (d : HandDetector) :
  wf_lmList l = true ->
  (forall a b, a < b <-> fx b < fx a) ->
  exists thumb others,
    fingersUp (set_lmList l d) = ok (thumb :: others) /\
    fingersUp (set_lmList (map_rows fx (fun y => y) l) d)
    = ok (flag (lm_x l 4 <? lm_x l 3) :: others) /\
    (lm_x l 3 <> lm_x l 4 -> flag (lm_x l 4 <? lm_x l 3) = 1 - thumb) /\
    (lm_x l 3 = lm_x l 4 -> flag (lm_x l 4 <? lm_x l 3) = 0 /\ thumb = 0).
Proof.
  intros Hwf Hfx.
  rewrite (fingersUp_wf (set_lmList (map_rows fx (fun y => y) l) d))
    by (apply map_rows_wf, Hwf).
  rewrite (fingersUp_wf (set_lmList l d)) by exact Hwf.
  cbn [lmList set_lmList].
  eexists _, _. split; [reflexivity |].
  rewrite !(fun p Hp => proj2 (map_rows_coords fx (fun y => y) l p Hwf Hp)) by lia.
  rewrite !(fun p Hp => proj1 (map_rows_coords fx (fun y => y) l p Hwf Hp)) by lia.
  split; [| split].
  - do 2 f_equal.
    destruct (Z.ltb_spec (fx (lm_x l 3)) (fx (lm_x l 4))) as [H | H];
      destruct (Z.ltb_spec (lm_x l 4) (lm_x l 3)) as [H' | H']; try reflexivity.
    + apply Hfx in H. lia.
    + apply Hfx in H'. lia.
  - intros Hne.
    destruct (Z.ltb_spec (lm_x l 4) (lm_x l 3)); destruct (Z.ltb_spec (lm_x l 3) (lm_x l 4));
      simpl; lia.
  - intros Heq. rewrite Heq, Z.ltb_irrefl. split; reflexivity.
Qed.

(** The demonstration list mirrored in a 100-wide image: thumb 1 becomes 0. *)
Lemma fingersUp_mirrored_witness :
  fingersUp (set_lmList demo_lmList fresh_detector) = ok [1; 1; 1; 1; 1] /\
  fingersUp (set_lmList (map_rows (fun x => 100 - x) (fun y => y) demo_lmList)
                        fresh_detector) = ok [0; 1; 1; 1; 1].
Proof.
  destruct (fingersUp_mirrored (fun x => 100 - x) demo_lmList fresh_detector eq_refl)
    as (thumb & others & H1 & H2 & _).
  - intros a b. lia.
  - split; [reflexivity |].
    vm_compute in H1. injection H1 as <- <-. exact H2.
Defined.

(** ** The distance and the midpoint *)

(** X15: the midpoint [findDistance] returns is the floor of the half sum in
    each coordinate, so it lies between the two pixels, at most half a pixel
    left of and above the true middle of the segment, and it is the pixel
    itself when the two pixels coincide. *)
Theorem findDistance_midpoint
        (hypot : norm) (p1 p2 : Z) (i : image) (draw : bool) (d : HandDetector)
        (v : float) (i' : image) (x1 y1 x2 y2 cx cy : Z) :
  findDistance hypot p1 p2 i draw d = ok (PyFloat v, i', [x1; y1; x2; y2; cx; cy]) ->
  Z.min x1 x2 <= cx <= Z.max x1 x2 /\
  Z.min y1 y2 <= cy <= Z.max y1 y2 /\
  2 * cx <= x1 + x2 <= 2 * cx + 1 /\
  2 * cy <= y1 + y2 <= 2 * cy + 1 /\
  (x1 = x2 -> cx = x1) /\ (y1 = y2 -> cy = y1).
Proof.
  intros Hcall.
  destruct (findDistance_returns _ _ _ _ _ _ _ _ _ Hcall)
    as (id1 & x1' & y1' & id2 & x2' & y2' & _ & _ & _ & _ & Hcs).
  injection Hcs as <- <- <- <- -> ->.
  pose proof (Z.div_mod (x1 + x2) 2 ltac:(lia)) as Hx.
  pose proof (Z.mod_pos_bound (x1 + x2) 2 ltac:(lia)) as Hxm.
  pose proof (Z.div_mod (y1 + y2) 2 ltac:(lia)) as Hy.
  pose proof (Z.mod_pos_bound (y1 + y2) 2 ltac:(lia)) as Hym.
  repeat split; lia.
Qed.

(** Landmarks 1 and 2 of the demonstration list, (51, 96) and (53, 93):
    midpoint (52, 94). *)
Lemma findDistance_midpoint_witness :
  exists v,
    findDistance sqrt_norm 1 2 demo_image false demo_cached =
    ok (PyFloat v, demo_image, [51; 96; 53; 93; 52; 94]) /\
    51 <= 52 <= 53 /\ 2 * 94 <= 96 + 93 <= 2 * 94 + 1.
Proof.
  eexists. split.
  - vm_compute. reflexivity.
  - destruct (findDistance_midpoint sqrt_norm 1 2 demo_image false demo_cached _ _
                51 96 53 93 52 94 eq_refl)
      as (Hx & _ & _ & Hy & _).
    split; [exact Hx | exact Hy].
Defined.



(** ** Pixels of landmarks that are not negative *)

(** X17: when no coordinate of the selected hand is negative, as with the
    engine's landmarks inside the image, and the call returns, no pixel
    coordinate of the landmark list is negative and the bounding box starts at
    non-negative [xmin], [ymin]: truncation never moves a pixel below 0. *)
Theorem findPosition_not_negative
        (i : image) (handNo : Z) (draw : bool) (d : HandDetector)
        (r : DetectionResult) (hands : list Hand) (myHand : Hand) (h w c : Z)
        (lms : list (list Z)) (bb : list Z) (d' : HandDetector) (i' : image) :
  results d = Some r ->
  multi_hand_landmarks r = Some hands ->
  handNo < len hands ->
  py_getitem hands handNo = ok myHand ->
  shape i = [h; w; c] ->
  0 <= w -> 0 <= h ->
  forallb in_first_quadrant (landmark myHand) = true ->
  findPosition i handNo draw d = (ok (lms, bb), d', i') ->
  (forall e, In e lms -> exists id x y, e = [id; x; y] /\ 0 <= x /\ 0 <= y) /\
  exists xmin ymin xmax ymax,
    bb = [xmin; ymin; xmax; ymax] /\ 0 <= xmin /\ 0 <= ymin.
Proof.
  intros Hres Hmhl Hlt Hget Hsh Hw Hh Hquad Hcall.
  destruct (findPosition_returns_rows i handNo draw d r hands myHand h w c
              lms bb d' i' Hres Hmhl Hlt Hget Hsh Hcall)
    as (pts & xmin & ymin & xmax & ymax & Hpts & _ & -> & _ & -> & Hx0 & _ & Hy0 & _).
  assert (Hpos : forall cx cy, In (cx, cy) pts -> 0 <= cx /\ 0 <= cy).
  { intros cx cy Hin.
    destruct (pixels_in w h _ pts (cx, cy) Hpts Hin) as (lm & Hl & Hpx).
    apply (to_pixel_not_negative w h lm cx cy Hw Hh); [| exact Hpx].
    apply (proj1 (forallb_forall _ _) Hquad lm Hl). }
  split.
  - intros e He. destruct (rows_from_in pts 0 e He) as (id & cx & cy & -> & Hin).
    exists id, cx, cy. split; [reflexivity | apply Hpos, Hin].
  - exists xmin, ymin, xmax, ymax. split; [reflexivity |]. split.
    + apply py_min_in in Hx0. apply in_map_iff in Hx0 as ([cx cy] & <- & Hin).
      apply (Hpos cx cy Hin).
    + apply py_min_in in Hy0. apply in_map_iff in Hy0 as ([cx cy] & <- & Hin).
      apply (Hpos cx cy Hin).
Qed.

(** The demonstration call with drawing off. *)
Lemma findPosition_not_negative_witness :
  findPosition demo_image 0 false demo_detector =
  (ok (demo_lmList, demo_bbox), demo_cached, demo_image) /\
  (forall e, In e demo_lmList -> exists id x y, e = [id; x; y] /\ 0 <= x /\ 0 <= y) /\
  exists xmin ymin xmax ymax,
    demo_bbox = [xmin; ymin; xmax; ymax] /\ 0 <= xmin /\ 0 <= ymin.
Proof.
  split; [reflexivity |].
  apply (findPosition_not_negative demo_image 0 false demo_detector
           {| multi_hand_landmarks := Some [demo_hand] |} [demo_hand] demo_hand
           200 100 3 demo_lmList demo_bbox demo_cached demo_image);
    try reflexivity; lia.
Defined.

(** ** What the outcome of findPosition depends on *)



(** X19: asking again changes nothing.  A second call of [findPosition] with
    the same index and flag, on the detector and the image the first call
    left, returns or raises what the first did and leaves the detector as the
    first left it. *)
Theorem findPosition_again
        (i : image) (handNo : Z) (draw : bool) (d : HandDetector) :
  let first := findPosition i handNo draw d in
  let again := findPosition (snd first) handNo draw (snd (fst first)) in
  fst (fst again) = fst (fst first) /\ snd (fst again) = snd (fst first).
Proof.
  cbv zeta.
  destruct (findPosition i handNo draw d) as [[res d'] i'] eqn:Hfirst. simpl.
  destruct (findPosition_leaves i handNo draw d res d' i' Hfirst) as [Hd Hsh].
  pose proof (findPosition_sim i i' handNo draw draw d (lmList d') (eq_sym Hsh)) as Hsim.
  rewrite Hfirst in Hsim. simpl in Hsim.
  assert (E : findPosition i' handNo draw d' =
              findPosition i' handNo draw (set_lmList (lmList d') d))
    by (rewrite <- Hd; reflexivity).
  rewrite E, <- Hsim. split; reflexivity.
Qed.

(** ** The queries before any location *)

(** X20: on a detector as [__init__] leaves it, and still after any call of
    [findHands] on it, whether the engine returns or raises, [fingersUp]
    returns the empty list and [findDistance] returns [(0, img, [])] with the
    image as passed, for every pair of indices: until [findPosition] has
    cached a list the queries fail softly and raise nothing. *)
Theorem queries_before_location
        (process : image -> Res DetectionResult)
        (mode_ : bool) (maxHands_ : Z) (detectionCon_ trackCon_ : float)
        (i : image) (draw : bool) :
  let fresh := init mode_ maxHands_ detectionCon_ trackCon_ in
  let detected := snd (fst (findHands process i draw fresh)) in
  fingersUp fresh = ok [] /\
  fingersUp detected = ok [] /\
  forall hypot p1 p2 i0 draw0,
    findDistance hypot p1 p2 i0 draw0 fresh = ok (PyInt 0, i0, []) /\
    findDistance hypot p1 p2 i0 draw0 detected = ok (PyInt 0, i0, []).
Proof.
  cbv zeta.
  assert (Hl : lmList (snd (fst (findHands process i draw
                 (init mode_ maxHands_ detectionCon_ trackCon_)))) = []).
  { destruct (process i) as [e | r] eqn:Hproc.
    - rewrite (findHands_raise process i draw _ e Hproc). reflexivity.
    - rewrite (findHands_ok process i draw _ r Hproc). reflexivity. }
  split; [reflexivity |].
  unfold fingersUp, findDistance. rewrite Hl.
  split; [reflexivity |]. intros; split; reflexivity.
Qed.

